(** * AnalysisData: the dictionary-like container of
    [quanalys/acquisition_utils/analysis_data.py]

    A shallow embedding of the class [AnalysisData] and of the [editing]
    decorator.  Python objects become a record, the methods become
    computations in a small state-and-exception monad: an exception keeps
    every field assignment made before it was raised, exactly as in Python. *)

From Stdlib Require Import ZArith Ascii String.
From stdpp Require Import gmap strings list fin_maps.

Set Warnings "-register-all,-clear-no-such-hyp".
Open Scope string_scope.

(** ** Values *)

(** The external array handle of [h5_np_array.py]. *)
Record H5NpArray := MkH5NpArray {
  h5_payload : list Z;
  h5_filepath : option string;
  h5_filekey : option string;
}.

(** Modelled from the spec: [H5NpArray.__init__filepath__] is not part of the
    sources; the array-handle contract is [bind(path, key)], which ties the
    handle to that pair. *)
Definition __init__filepath__ (filepath filekey : string) (h : H5NpArray) : H5NpArray :=
  {| h5_payload := h5_payload h;
     h5_filepath := Some filepath;
     h5_filekey := Some filekey |}.

(** What a dataset can hold: scalars, sequences, nested mappings and array
    handles.  A [string] is read as a sequence of characters, one [ascii]
    (a code point below 256) per character. *)
Inductive value :=
  | VNone
  | VInt (z : Z)
  | VStr (s : string)
  | VList (l : list value)
  | VDict (d : gmap string value)
  | VH5 (h : H5NpArray).

(** A key as it may occur inside a tuple index: a name or a position. *)
Inductive key :=
  | KStr (s : string)
  | KInt (i : Z).

(** ** Exceptions and the monad *)

Inductive exn :=
  | ValueError (msg : string)
  | TypeError (msg : string)
  | KeyError (k : key)
  | IndexError
  | AttributeError (msg : string)
  | OSError.

Inductive result (A : Type) :=
  | Ok (a : A)
  | Raise (e : exn).
Arguments Ok {A} a.
Arguments Raise {A} e.

Definition is_ok {A} (r : result A) : bool :=
  match r with Ok _ => true | Raise _ => false end.

(** [_read_only : Union[bool, Set[str]]] *)
Inductive read_only_t :=
  | ROBool (b : bool)
  | ROSet (s : gset string).

(** The two effects the container has on the file system, as they are
    issued: a write through [h5py_utils.save_dict] and [os.remove].  Probing
    a path and reading a file are not recorded. *)
Inductive event :=
  | EvSaveDict (filename : string) (data : gmap string value)
  | EvRemove (filename : string).

Record AnalysisData := MkAnalysisData {
  _repr : option string;
  _last_data_saved : bool;
  _filepath : option string;
  _read_only : read_only_t;
  _data : gmap string value;
  _attrs : gset string;
  _last_update : gset string;
  _save_on_edit : bool;
  (* ghost field: the calls issued so far, oldest first *)
  calls : list event;
}.

(** Field assignments, [self._x = v]. *)
Definition set__repr (v : option string) (s : AnalysisData) : AnalysisData :=
  MkAnalysisData v (_last_data_saved s) (_filepath s) (_read_only s) (_data s)
    (_attrs s) (_last_update s) (_save_on_edit s) (calls s).
Definition set__last_data_saved (v : bool) (s : AnalysisData) : AnalysisData :=
  MkAnalysisData (_repr s) v (_filepath s) (_read_only s) (_data s)
    (_attrs s) (_last_update s) (_save_on_edit s) (calls s).
Definition set__filepath (v : option string) (s : AnalysisData) : AnalysisData :=
  MkAnalysisData (_repr s) (_last_data_saved s) v (_read_only s) (_data s)
    (_attrs s) (_last_update s) (_save_on_edit s) (calls s).
Definition set__read_only (v : read_only_t) (s : AnalysisData) : AnalysisData :=
  MkAnalysisData (_repr s) (_last_data_saved s) (_filepath s) v (_data s)
    (_attrs s) (_last_update s) (_save_on_edit s) (calls s).
Definition set__data (v : gmap string value) (s : AnalysisData) : AnalysisData :=
  MkAnalysisData (_repr s) (_last_data_saved s) (_filepath s) (_read_only s) v
    (_attrs s) (_last_update s) (_save_on_edit s) (calls s).
Definition set__attrs (v : gset string) (s : AnalysisData) : AnalysisData :=
  MkAnalysisData (_repr s) (_last_data_saved s) (_filepath s) (_read_only s) (_data s)
    v (_last_update s) (_save_on_edit s) (calls s).
Definition set__last_update (v : gset string) (s : AnalysisData) : AnalysisData :=
  MkAnalysisData (_repr s) (_last_data_saved s) (_filepath s) (_read_only s) (_data s)
    (_attrs s) v (_save_on_edit s) (calls s).
Definition set__save_on_edit (v : bool) (s : AnalysisData) : AnalysisData :=
  MkAnalysisData (_repr s) (_last_data_saved s) (_filepath s) (_read_only s) (_data s)
    (_attrs s) (_last_update s) v (calls s).
Definition log_call (e : event) (s : AnalysisData) : AnalysisData :=
  MkAnalysisData (_repr s) (_last_data_saved s) (_filepath s) (_read_only s) (_data s)
    (_attrs s) (_last_update s) (_save_on_edit s) (calls s ++ [e]).

(** A method body: it reads and writes [self] and may raise.  A method that
    ends in [return self] returns [tt] here: the container it returns is the
    state the computation leaves. *)
Definition M (A : Type) : Type := AnalysisData → result A * AnalysisData.

#[global] Instance M_ret : MRet M := λ A a s, (Ok a, s).
#[global] Instance M_bind : MBind M := λ A B f m s,
  match m s with
  | (Ok a, s') => f a s'
  | (Raise e, s') => (Raise e, s')
  end.

Definition raise {A} (e : exn) : M A := λ s, (Raise e, s).
Definition self : M AnalysisData := λ s, (Ok s, s).
Definition assign (f : AnalysisData → AnalysisData) : M unit := λ s, (Ok tt, f s).

(** ** Python helpers *)

Definition in_chars (c : ascii) (chars : string) : bool :=
  bool_decide (c ∈ list_ascii_of_string chars).

(** [str.rstrip(chars)]: drop the longest suffix made of characters of
    [chars]. *)
Fixpoint rstrip (chars s : string) : string :=
  match s with
  | EmptyString => EmptyString
  | String c s' =>
      match rstrip chars s' with
      | EmptyString => if in_chars c chars then EmptyString else String c EmptyString
      | r => String c r
      end
  end.

Definition startswith (s p : string) : bool := String.prefix p s.

(** Truth value of an [Optional[bool]] and of a [Union[bool, Set[str]]]. *)
Definition truthy_opt (o : option bool) : bool := default false o.
Definition truthy (ro : read_only_t) : bool :=
  match ro with
  | ROBool b => b
  | ROSet s => bool_decide (s ≠ ∅)
  end.
(** [x is True] *)
Definition is_True (ro : read_only_t) : bool :=
  match ro with
  | ROBool true => true
  | _ => false
  end.
(** [isinstance(x, set)] *)
Definition isinstance_set (ro : read_only_t) : bool :=
  match ro with
  | ROSet _ => true
  | ROBool _ => false
  end.

(** [a or b] on optional strings: the empty string is falsy. *)
Definition py_or (a b : option string) : option string :=
  match a with
  | Some EmptyString | None => b
  | Some s => Some s
  end.

(** [seq[i]] with Python's negative positions. *)
Definition py_index {A} (l : list A) (i : Z) : option A :=
  let n := Z.of_nat (length l) in
  if bool_decide (0 ≤ i < n)%Z then l !! Z.to_nat i
  else if bool_decide (- n ≤ i < 0)%Z then l !! Z.to_nat (n + i)
  else None.

(** [for x in l: body(x)] *)
Fixpoint for_each {A} (l : list A) (body : A → M unit) : M unit :=
  match l with
  | [] => mret tt
  | x :: l' => body x;; for_each l' body
  end.

(** ** The collaborators

    [h5py_utils], [os] and the interpreter's [object.__setattr__] are not
    part of the container; the container only calls them. *)
Class Collaborators := {
  (* h5py_utils.transform_to_possible_formats *)
  transform_to_possible_formats : value → value;
  (* h5py_utils.save_dict: given the calls made so far, does this write go
     through ([true]) or raise ([false])? *)
  save_dict : list event → string → gmap string value → bool;
  (* h5py_utils.open_h5 *)
  open_h5 : string → result (gmap string value);
  (* h5py_utils.output_dict_structure *)
  output_dict_structure : gmap string value → string;
  (* os.path.exists *)
  path_exists : string → bool;
  (* os.remove: is the file removed ([true]) or does the call raise
     ([false])? *)
  os_remove_ok : string → bool;
  (* H5NpArray.__getitem__ *)
  h5_getitem : H5NpArray → key → result value;
  (* object.__setattr__, reached for names that start with an underscore *)
  object_setattr : string → value → AnalysisData → AnalysisData;
  (* object.__delattr__, reached for names that are not dataset keys *)
  object_delattr : string → M unit;
}.

(** Arguments of [lock_data] and [clean_lock]: [None], one [str], or an
    iterable of names. *)
Inductive keys_arg :=
  | KeysNone
  | KeysStr (k : string)
  | KeysIter (l : list string).

(** Argument of [__getitem__]: one key or a tuple of keys. *)
Inductive index :=
  | IKey (k : key)
  | ITuple (ks : list key).

Section Subscript.
Context `{Collaborators}.

(** [obj[key]] on a stored value.  The subscripting of an array handle
    belongs to [H5NpArray]. *)
Definition py_getitem (obj : value) (k : key) : result value :=
  match obj, k with
  | VDict d, KStr s =>
      match d !! s with
      | Some v => Ok v
      | None => Raise (KeyError k)
      end
  | VDict _, KInt _ => Raise (KeyError k)
  | VList l, KInt i =>
      match py_index l i with
      | Some v => Ok v
      | None => Raise IndexError
      end
  | VList _, KStr _ => Raise (TypeError "list indices must be integers or slices, not str")
  | VStr s, KInt i =>
      match py_index (list_ascii_of_string s) i with
      | Some c => Ok (VStr (String c EmptyString))
      | None => Raise IndexError
      end
  | VStr _, KStr _ => Raise (TypeError "string indices must be integers, not 'str'")
  | VH5 h, _ => h5_getitem h k
  | VInt _, _ => Raise (TypeError "'int' object is not subscriptable")
  | VNone, _ => Raise (TypeError "'NoneType' object is not subscriptable")
  end.

(** [for key in keys: data = data[key]] *)
Fixpoint getitem_chain (data : value) (keys : list key) : result value :=
  match keys with
  | [] => Ok data
  | k :: keys' =>
      match py_getitem data k with
      | Ok v => getitem_chain v keys'
      | Raise e => Raise e
      end
  end.

End Subscript.

Section Methods.
Context `{Collaborators}.

(** The instance before [__init__] runs: the class-level defaults. *)
Definition blank : AnalysisData :=
  {| _repr := None; _last_data_saved := false; _filepath := None;
     _read_only := ROBool false; _data := ∅; _attrs := ∅; _last_update := ∅;
     _save_on_edit := false; calls := [] |}.

Definition call_save_dict (filename : string) (data : gmap string value) : M unit :=
  λ s, let s' := log_call (EvSaveDict filename data) s in
       if save_dict (calls s) filename data then (Ok tt, s') else (Raise OSError, s').

Definition os_remove (filename : string) : M unit :=
  λ s, let s' := log_call (EvRemove filename) s in
       if os_remove_ok filename then (Ok tt, s') else (Raise OSError, s').

Definition _update (kwds : gmap string value) : M unit :=
  assign (λ s, set__attrs (_attrs s ∪ dom kwds) s);;
  assign (λ s, set__data (kwds ∪ _data s) s).

(** [_update] is called with the loaded mapping unpacked as keywords: a
    dataset named [self] collides with the method's own first parameter, and
    the call raises before [_update] runs. *)
Definition _load_from_h5 (filepath : string) : M unit :=
  match open_h5 (rstrip ".h5" filepath +:+ ".h5") with
  | Ok data =>
      if bool_decide ("self" ∈ dom data)
      then raise (TypeError
                    "AnalysisData._update() got multiple values for argument 'self'")
      else _update data
  | Raise e => raise e
  end.

Definition __init__ (filepath : option string) (save_on_edit : bool)
    (read_only : option read_only_t) (overwrite : option bool) : M unit :=
  assign (set__data ∅);;
  assign (set__attrs ∅);;
  assign (set__last_update ∅);;
  assign (set__save_on_edit save_on_edit);;
  let read_only :=
    match read_only with
    | None => ROBool ((negb save_on_edit && negb (truthy_opt overwrite))
                      && bool_decide (filepath ≠ None))
    | Some ro => ro
    end in
  assign (set__read_only read_only);;
  match filepath with
  | None => mret tt
  | Some filepath =>
      let filepath := rstrip ".h5" filepath +:+ ".h5" in
      (if (truthy_opt overwrite || save_on_edit) && truthy read_only
       then raise (ValueError "Cannot open file in read_only mode and overwrite it.")
       else mret tt);;
      (if path_exists filepath then
         (if bool_decide (overwrite = None) && negb (truthy read_only)
          then raise (ValueError ("File with the same name already exists. So you"
                 +:+ "                        should explicitly provide what to do with it. Set `overwrite=True`"
                 +:+ "                        to replace file. Set `overwrite=False` if you want to open existing"
                 +:+ "                        file and work with it."))
          else mret tt);;
         (if truthy_opt overwrite && negb (truthy read_only)
          then os_remove filepath else mret tt);;
         (if truthy read_only || (negb (truthy read_only) && negb (truthy_opt overwrite))
          then _load_from_h5 filepath else mret tt)
       else if truthy read_only
       then raise (ValueError ("Cannot open file in read_only mode if file "
                               +:+ filepath +:+ " does not exist"))
       else mret tt);;
      (if negb (truthy read_only)
       then assign (set__filepath (Some filepath)) else mret tt)
  end.

(** [AnalysisData(filepath, save_on_edit, read_only, overwrite)] *)
Definition new (filepath : option string) (save_on_edit : bool)
    (read_only : option read_only_t) (overwrite : option bool)
    : result unit * AnalysisData :=
  __init__ filepath save_on_edit read_only overwrite blank.

Definition keys (s : AnalysisData) : list string := (map_to_list (_data s)).*1.

Definition read_only_add (key : string) : M unit :=
  λ s, match _read_only s with
       | ROSet locked => (Ok tt, set__read_only (ROSet (locked ∪ {[key]})) s)
       | ROBool _ => (Raise (AttributeError "'bool' object has no attribute 'add'"), s)
       end.

Definition read_only_remove (key : string) : M unit :=
  λ s, match _read_only s with
       | ROSet locked =>
           if bool_decide (key ∈ locked)
           then (Ok tt, set__read_only (ROSet (locked ∖ {[key]})) s)
           else (Raise (KeyError (KStr key)), s)
       | ROBool _ => (Raise (AttributeError "'bool' object has no attribute 'remove'"), s)
       end.

Definition lock_data (keys_ : keys_arg) : M unit :=
  s ← self;
  (if is_True (_read_only s)
   then raise (ValueError "Cannot lock specific data and everything is locked by read_only mode")
   else mret tt);;
  (if negb (isinstance_set (_read_only s))
   then assign (set__read_only (ROSet ∅)) else mret tt);;
  let keys_ :=
    match keys_ with
    | KeysNone => keys s
    | KeysStr k => [k]
    | KeysIter l => l
    end in
  for_each keys_ read_only_add.

Definition clean_lock (remove_keys : keys_arg) : M unit :=
  s ← self;
  (if is_True (_read_only s)
   then raise (ValueError "Cannot unlock is global read_only mode was set to True")
   else mret tt);;
  if isinstance_set (_read_only s) then
    match remove_keys with
    | KeysNone => assign (set__read_only (ROBool false))
    | KeysStr k => for_each [k] read_only_remove
    | KeysIter l => for_each l read_only_remove
    end
  else mret tt.

Definition _clean_precalculated_results : M unit := assign (set__repr None).

Definition __add_key (key : string) : M unit :=
  assign (λ s, set__attrs (_attrs s ∪ {[key]}) s);;
  assign (λ s, set__last_update (_last_update s ∪ {[key]}) s).

Definition __del_key (key : string) : M unit :=
  s ← self;
  (if bool_decide (key ∈ _attrs s)
   then assign (set__attrs (_attrs s ∖ {[key]}))
   else raise (KeyError (KStr key)));;
  assign (λ s, set__last_update (_last_update s ∪ {[key]}) s).

Definition __check_read_only_true (key : string) (s : AnalysisData) : bool :=
  truthy (_read_only s)
  && (is_True (_read_only s)
      || match _read_only s with
         | ROSet locked => bool_decide (key ∈ locked)
         | ROBool _ => false
         end).

Definition read_only_error (key : string) : exn :=
  TypeError ("Cannot set a read-only '" +:+ key +:+ "' attribute").

Definition _check_if_filepath_was_set (filepath filepath2 : option string) : result string :=
  match py_or filepath filepath2 with
  | None => Raise (ValueError "Should provide filepath or set self.filepath before saving")
  | Some filepath => Ok (rstrip ".h5" filepath)
  end.

Definition lift {A} (r : result A) : M A := λ s, (r, s).

Definition save (just_update : bool) (filepath : option string) : M unit :=
  s ← self;
  (if is_True (_read_only s)
   then raise (ValueError "Cannot save opened in a read-only mode. Should reopen the file")
   else mret tt);;
  assign (set__last_data_saved true);;
  last_update ← (λ s, (Ok (_last_update s), set__last_update ∅ s));
  s ← self;
  filepath ← lift (_check_if_filepath_was_set filepath (_filepath s));
  if negb just_update then
    call_save_dict (filepath +:+ ".h5") (_data s)
  else
    call_save_dict (filepath +:+ ".h5")
      (set_to_map (λ key, (key, default VNone (_data s !! key))) last_update).

(** The decorator [editing]. *)
Definition editing {A} (func : M A) : M A :=
  assign (set__last_data_saved false);;
  res ← func;
  _clean_precalculated_results;;
  s ← self;
  (if _save_on_edit s then save true None else mret tt);;
  mret res.

(** Keyword arguments in call order; Python rejects a repeated keyword, and a
    keyword named [self] before the method is entered. *)
Fixpoint update_loop (kwds : list (string * value)) : M (list (string * value)) :=
  match kwds with
  | [] => mret []
  | (key, v) :: kwds' =>
      s ← self;
      (if __check_read_only_true key s then raise (read_only_error key) else mret tt);;
      __add_key key;;
      rest ← update_loop kwds';
      mret ((key, transform_to_possible_formats v) :: rest)
  end.

Definition dict_update (d : gmap string value) (kwds : list (string * value))
    : gmap string value :=
  foldl (λ d kv, <[kv.1 := kv.2]> d) d kwds.

Definition update_body (kwds : list (string * value)) : M unit :=
  kwds' ← update_loop kwds;
  assign (λ s, set__data (dict_update (_data s) kwds') s).

Definition update (kwds : list (string * value)) : M unit :=
  editing (update_body kwds).

Definition pop_body (key : string) : M unit :=
  s ← self;
  (if __check_read_only_true key s then raise (read_only_error key) else mret tt);;
  __del_key key;;
  s ← self;
  if bool_decide (key ∈ dom (_data s))
  then assign (set__data (delete key (_data s)))
  else raise (KeyError (KStr key)).

Definition pop (key : string) : M unit := editing (pop_body key).

Definition get (key : string) (default_ : value) : M value :=
  s ← self; mret (default default_ (_data s !! key)).

Definition __getitem__ (__key : index) : M value :=
  s ← self;
  match __key with
  | ITuple ks => lift (getitem_chain (VDict (_data s)) ks)
  | IKey k => lift (py_getitem (VDict (_data s)) k)
  end.

Definition setitem_body (__key : string) (__value : value) : M unit :=
  s ← self;
  (if __check_read_only_true __key s then raise (read_only_error __key) else mret tt);;
  __add_key __key;;
  let __value := transform_to_possible_formats __value in
  __value ←
    match __value with
    | VH5 h =>
        match _filepath s with
        | None => raise (ValueError "Cannot create a H5NpArray object without specifying a file")
        | Some fp =>
            if negb (_save_on_edit s)
            then raise (ValueError "Cannot use H5NpArray is save_on_edit=False")
            else mret (VH5 (__init__filepath__ fp __key h))
        end
    | v => mret v
    end;
  assign (λ s, set__data (<[__key := __value]> (_data s)) s).

Definition __setitem__ (__key : string) (__value : value) : M unit :=
  editing (setitem_body __key __value).

Definition __delitem__ (key : string) : M unit := pop key.

Definition __contains__ (item : string) : M bool :=
  s ← self; mret (bool_decide (item ∈ dom (_data s))).

Definition __getattr__ (__name : string) : M value :=
  s ← self;
  if bool_decide (__name ∈ dom (_data s)) then get __name VNone
  else raise (AttributeError ("No attribute " +:+ __name +:+ " found in AnalysisData")).

Definition __setattr__ (__name : string) (__value : value) : M unit :=
  if startswith __name "_" then assign (object_setattr __name __value)
  else __setitem__ __name __value.

Definition __delattr__ (__name : string) : M unit :=
  s ← self;
  if bool_decide (__name ∈ dom (_data s)) then __delitem__ __name
  else object_delattr __name.

Definition _default_attr : list string :=
  ["get"; "items"; "keys"; "pop"; "update"; "values"; "save"].

Definition __dir__ : M (list string) :=
  s ← self; mret (elements (_attrs s) ++ _default_attr)%list.

Definition _get_repr : M unit :=
  s ← self;
  match _repr s with
  | None => assign (set__repr (Some (output_dict_structure (_data s))))
  | Some _ => mret tt
  end.

Definition __repr__ : M string :=
  _get_repr;;
  s ← self;
  let not_saved :=
    if _last_data_saved s || is_True (_read_only s) then "" else " (not saved)" in
  let mode :=
    if is_True (_read_only s) then "r"
    else if is_True (_read_only s) then "w" else "rw" in
  mret ("AnalysisData (" +:+ mode +:+ ")" +:+ not_saved +:+ ": "
        +:+ String (ascii_of_nat 10) " " +:+ default "None" (_repr s)).

End Methods.

(** ** Sequences of public calls *)

Inductive op :=
  | OLock (keys_ : keys_arg)
  | OUnlock (remove_keys : keys_arg)
  | OSetItem (k : string) (v : value)
  | OPop (k : string)
  | ODelItem (k : string)
  | OUpdate (kwds : list (string * value))
  | OSave (just_update : bool) (filepath : option string)
  | OGet (k : string) (default_ : value)
  | OGetItem (i : index).

Section Calls.
Context `{Collaborators}.

Definition void {A} (m : M A) : M unit := m;; mret tt.

Definition call (o : op) : M unit :=
  match o with
  | OLock ks => lock_data ks
  | OUnlock ks => clean_lock ks
  | OSetItem k v => __setitem__ k v
  | OPop k => pop k
  | ODelItem k => __delitem__ k
  | OUpdate kwds => update kwds
  | OSave ju fp => save ju fp
  | OGet k d => void (get k d)
  | OGetItem i => void (__getitem__ i)
  end.

(** A client that goes on after an exception: the object after the calls. *)
Definition after (ops : list op) (s : AnalysisData) : AnalysisData :=
  foldl (λ s o, (call o s).2) s ops.

(** The keys a call adds, removes or reassigns when it goes through. *)
Definition touched (o : op) : gset string :=
  match o with
  | OSetItem k _ | OPop k | ODelItem k => {[k]}
  | OUpdate kwds => list_to_set kwds.*1
  | _ => ∅
  end.

Definition is_mutation (o : op) : bool :=
  match o with
  | OSetItem _ _ | OPop _ | ODelItem _ | OUpdate _ => true
  | _ => false
  end.

Definition is_save (o : op) : bool :=
  match o with
  | OSave _ _ => true
  | _ => false
  end.

(** The method under its decorator: what [editing] wraps for a mutating
    call, the call itself otherwise. *)
Definition body_of (o : op) : M unit :=
  match o with
  | OSetItem k v => setitem_body k v
  | OPop k | ODelItem k => pop_body k
  | OUpdate kwds => update_body kwds
  | _ => call o
  end.

End Calls.

(** A stand-in for the collaborators, to run the container on concrete
    inputs: values are stored as given, a write or a removal goes through
    iff [writes], a file exists iff [file] holds its contents, and an array
    handle is subscripted by position in its payload. *)
Definition stub (writes : bool) (file : option (gmap string value)) : Collaborators :=
  {| transform_to_possible_formats := λ v, v;
     save_dict := λ _ _ _, writes;
     open_h5 := λ _, match file with Some d => Ok d | None => Raise OSError end;
     output_dict_structure := λ _, "";
     path_exists := λ _, bool_decide (file ≠ None);
     os_remove_ok := λ _, writes;
     h5_getitem := λ h k,
       match k with
       | KInt i =>
           match py_index (h5_payload h) i with
           | Some z => Ok (VInt z)
           | None => Raise IndexError
           end
       | KStr _ => Raise IndexError
       end;
     object_setattr := λ _ _ s, s;
     object_delattr := λ n, raise (AttributeError n) |}.

(** [container[a][b][c]...]: one single-key [__getitem__] on the container,
    then one subscript per remaining key, left to right. *)
Definition chained_index `{Collaborators} (s : AnalysisData) (a : key) (rest : list key)
    : result value :=
  foldl (λ r k, match r with Ok v => py_getitem v k | Raise e => Raise e end)
        (__getitem__ (IKey a) s).1 rest.

(** The mapping an incremental save hands to [save_dict]. *)
Definition incremental_payload (last_update : gset string) (data : gmap string value)
    : gmap string value :=
  set_to_map (λ key, (key, default VNone (data !! key))) last_update.


(** The message of the [ValueError] that [save] raises on a fully read-only
    container. *)
Definition save_read_only_msg : string :=
  "Cannot save opened in a read-only mode. Should reopen the file".

(** [preserves f m]: whatever [m] does, [f self] is the same afterwards,
    also when [m] raises. *)
Definition preserves {A X} (f : AnalysisData → X) (m : M A) : Prop :=
  ∀ s, f (m s).2 = f s.

(** ** Vocabulary of the further properties *)

(** Every character of [t] is one of [chars]. *)
Definition all_in (chars t : string) : Prop :=
  Forall (λ c, in_chars c chars = true) (list_ascii_of_string t).

(** [filepath.rstrip('.h5') + '.h5'], the file name the constructor works
    with. *)
Definition h5_name (filepath : string) : string := rstrip ".h5" filepath +:+ ".h5".

(** The message of the [TypeError] raised when a loaded file holds a dataset
    named [self]. *)
Definition self_keyword_msg : string :=
  "AnalysisData._update() got multiple values for argument 'self'".

(** The value of [read_only] once [__init__] has resolved [None]. *)
Definition resolved_read_only (filepath : option string) (save_on_edit : bool)
    (read_only : option read_only_t) (overwrite : option bool) : read_only_t :=
  match read_only with
  | None => ROBool ((negb save_on_edit && negb (truthy_opt overwrite))
                    && bool_decide (filepath ≠ None))
  | Some ro => ro
  end.

(** The keys a partial lock holds; none when [_read_only] is a [bool]. *)
Definition locked_keys (s : AnalysisData) : gset string :=
  match _read_only s with
  | ROSet locked => locked
  | ROBool _ => ∅
  end.

(** The keys an argument of [lock_data] names. *)
Definition named_keys (keys_ : keys_arg) (s : AnalysisData) : gset string :=
  match keys_ with
  | KeysNone => dom (_data s)
  | KeysStr k => {[k]}
  | KeysIter l => list_to_set l
  end.

(** Two states hold the same dataset, the same bookkeeping sets, and have
    issued the same calls. *)
Definition same_content (s s' : AnalysisData) : Prop :=
  _data s' = _data s ∧ _attrs s' = _attrs s ∧ _last_update s' = _last_update s
  ∧ calls s' = calls s ∧ _filepath s' = _filepath s ∧ _read_only s' = _read_only s.

(** The cached summary, when there is one, is the summary of the current
    [_data]. *)
Definition cache_fresh `{Collaborators} (s : AnalysisData) : Prop :=
  _repr s = None ∨ _repr s = Some (output_dict_structure (_data s)).

(** Public calls interleaved with [repr(container)]. *)
Inductive request :=
  | Call (o : op)
  | Repr.

Definition serve `{Collaborators} (r : request) : M unit :=
  match r with
  | Call o => call o
  | Repr => void __repr__
  end.

Definition served `{Collaborators} (rs : list request) (s : AnalysisData) : AnalysisData :=
  foldl (λ s r, (serve r s).2) s rs.

(** * Properties *)

(** ** Frame reasoning: what a method leaves alone *)

Ltac unfold_monad :=
  unfold mbind, mret, M_bind, M_ret, raise, self, assign, lift in *.

Section Frames.
Context `{Collaborators}.
Context {X : Type} (f : AnalysisData → X).

Lemma preserves_ret {A} (a : A) : preserves f (mret a).
Proof. intros s. reflexivity. Qed.

Lemma preserves_raise {A} (e : exn) : preserves f (@raise A e).
Proof. intros s. reflexivity. Qed.

Lemma preserves_self : preserves f self.
Proof. intros s. reflexivity. Qed.

Lemma preserves_lift {A} (r : result A) : preserves f (lift r).
Proof. intros s. reflexivity. Qed.

Lemma preserves_assign (g : AnalysisData → AnalysisData) :
  (∀ s, f (g s) = f s) → preserves f (assign g).
Proof. intros Hg s. apply Hg. Qed.

Lemma preserves_bind {A B} (m : M A) (k : A → M B) :
  preserves f m → (∀ a, preserves f (k a)) → preserves f (m ≫= k).
Proof.
  intros Hm Hk s. unfold_monad. specialize (Hm s).
  destruct (m s) as [[a|e] s1]; simpl in *.
  - rewrite Hk. exact Hm.
  - exact Hm.
Qed.

Lemma preserves_for_each {A} (l : list A) (body : A → M unit) :
  (∀ x, preserves f (body x)) → preserves f (for_each l body).
Proof.
  intros Hb. induction l as [|x l IH]; simpl.
  - apply preserves_ret.
  - apply preserves_bind; [apply Hb | intros _; exact IH].
Qed.

End Frames.

Ltac frame_step :=
  lazymatch goal with
  | Hm : preserves ?f ?m |- preserves ?f ?m => exact Hm
  | |- preserves _ (mret _) => apply preserves_ret
  | |- preserves _ (raise _) => apply preserves_raise
  | |- preserves _ self => apply preserves_self
  | |- preserves _ (lift _) => apply preserves_lift
  | |- preserves _ (assign _) =>
      apply preserves_assign; intros ?;
      first [ reflexivity
            | match goal with
              | Hx : ∀ v s, ?f (_ v s) = ?f s |- _ => solve [apply Hx]
              end ]
  | |- preserves _ (_ ≫= _) => apply preserves_bind; [ | intros ? ]
  | |- preserves _ (for_each _ _) => apply preserves_for_each; intros ?
  | |- preserves _ (if ?b then _ else _) => destruct b
  | |- preserves _ (match ?x with _ => _ end) => destruct x
  | |- preserves _ (λ s, _) =>
      intros ?; simpl; repeat case_match; simpl; try reflexivity
  end.
Ltac frame_with tac := repeat first [ progress tac | frame_step ].
Ltac frame := frame_with idtac.

Section FrameLemmas.
Context `{Collaborators}.

Lemma call_save_dict_frame {X} (f : AnalysisData → X) filename data :
  (∀ e s, f (log_call e s) = f s) → preserves f (call_save_dict filename data).
Proof.
  intros Hf s. unfold call_save_dict.
  destruct (save_dict _ _ _); simpl; apply Hf.
Qed.

(** Only [lock_data] and [clean_lock] ever assign [_read_only]. *)
Lemma save_read_only ju fp : preserves _read_only (save ju fp).
Proof.
  unfold save. frame_with ltac:(try (apply call_save_dict_frame; reflexivity)).
Qed.

Lemma editing_read_only {A} (func : M A) :
  preserves _read_only func → preserves _read_only (editing func).
Proof.
  intros Hf. unfold editing, _clean_precalculated_results.
  frame_with ltac:(try apply save_read_only).
Qed.

Lemma update_loop_read_only kwds : preserves _read_only (update_loop kwds).
Proof.
  induction kwds as [|[key v] kwds IH]; simpl; unfold __add_key; frame.
Qed.

Lemma update_read_only kwds : preserves _read_only (update kwds).
Proof.
  apply editing_read_only. unfold update_body.
  frame_with ltac:(try apply update_loop_read_only).
Qed.

Lemma pop_read_only key : preserves _read_only (pop key).
Proof. apply editing_read_only. unfold pop_body, __del_key. frame. Qed.

Lemma setitem_read_only key v : preserves _read_only (__setitem__ key v).
Proof. apply editing_read_only. unfold setitem_body, __add_key. frame. Qed.

(** The bodies of the three mutating methods assign [_attrs],
    [_last_update] and [_data] only. *)
Section Bodies.
Context {X : Type} (f : AnalysisData → X).
Hypothesis f_attrs : ∀ v s, f (set__attrs v s) = f s.
Hypothesis f_last_update : ∀ v s, f (set__last_update v s) = f s.
Hypothesis f_data : ∀ v s, f (set__data v s) = f s.

Lemma update_loop_frame kwds : preserves f (update_loop kwds).
Proof.
  induction kwds as [|[key v] kwds IH]; simpl; unfold __add_key; frame.
Qed.

Lemma update_body_frame kwds : preserves f (update_body kwds).
Proof.
  unfold update_body. frame_with ltac:(try apply update_loop_frame).
Qed.

Lemma pop_body_frame key : preserves f (pop_body key).
Proof. unfold pop_body, __del_key. frame. Qed.

Lemma setitem_body_frame key v : preserves f (setitem_body key v).
Proof. unfold setitem_body, __add_key. frame. Qed.

End Bodies.

Lemma get_frame {X} (f : AnalysisData → X) key d : preserves f (get key d).
Proof. unfold get. frame. Qed.

Lemma getitem_frame {X} (f : AnalysisData → X) i : preserves f (__getitem__ i).
Proof. unfold __getitem__. frame. Qed.

End FrameLemmas.

(** ** Locking *)

Section Locking.
Context `{Collaborators}.

Lemma call_read_only_true (o : op) (s : AnalysisData) :
  _read_only s = ROBool true → _read_only (call o s).2 = ROBool true.
Proof.
  intros Hro. destruct o; simpl.
  - unfold lock_data. unfold_monad. rewrite Hro. simpl. exact Hro.
  - unfold clean_lock. unfold_monad. rewrite Hro. simpl. exact Hro.
  - rewrite setitem_read_only. exact Hro.
  - rewrite pop_read_only. exact Hro.
  - unfold __delitem__. rewrite pop_read_only. exact Hro.
  - rewrite update_read_only. exact Hro.
  - rewrite save_read_only. exact Hro.
  - unfold void. unfold_monad. simpl. exact Hro.
  - unfold void, __getitem__. unfold_monad.
    destruct i; simpl; match goal with |- context [match ?r with _ => _ end] =>
      destruct r end; exact Hro.
Qed.

(** C6: a container whose [_read_only] is [True] stays so under every
    sequence of public calls (lock, unlock, set, pop, delete, update, save,
    get, indexing): [lock_data] and [clean_lock] raise and leave the
    container as it is, and no other method assigns [_read_only]. *)
Theorem fully_locked_is_final (s : AnalysisData) (ops : list op) :
  _read_only s = ROBool true →
  _read_only (after ops s) = ROBool true
  ∧ (∀ ks, lock_data ks (after ops s)
           = (Raise (ValueError
                "Cannot lock specific data and everything is locked by read_only mode"),
              after ops s))
  ∧ (∀ ks, clean_lock ks (after ops s)
           = (Raise (ValueError
                "Cannot unlock is global read_only mode was set to True"),
              after ops s)).
Proof.
  intros Hro.
  assert (Hafter : _read_only (after ops s) = ROBool true).
  { revert s Hro. induction ops as [|o ops IH]; intros s Hro; simpl.
    - exact Hro.
    - apply IH. apply call_read_only_true. exact Hro. }
  split; [exact Hafter|]. split; intros ks.
  - unfold lock_data. unfold_monad. rewrite Hafter. reflexivity.
  - unfold clean_lock. unfold_monad. rewrite Hafter. reflexivity.
Qed.

(** C10: on a container that is not locked at all ([_read_only] is
    [False]), [clean_lock] with any argument raises nothing, changes nothing
    and returns the container. *)
Theorem clean_lock_unlocked (s : AnalysisData) (remove_keys : keys_arg) :
  _read_only s = ROBool false → clean_lock remove_keys s = (Ok tt, s).
Proof.
  intros Hro. unfold clean_lock. unfold_monad. rewrite Hro. reflexivity.
Qed.

End Locking.

(** ** Indexing *)

Section Indexing.
Context `{Collaborators}.

Lemma foldl_raise (e : exn) (ks : list key) :
  foldl (λ r k, match r with Ok v => py_getitem v k | Raise e => Raise e end)
        (Raise e) ks = Raise e.
Proof. induction ks as [|k ks IH]; simpl; [reflexivity | exact IH]. Qed.

Lemma getitem_chain_foldl (v : value) (ks : list key) :
  getitem_chain v ks
  = foldl (λ r k, match r with Ok v => py_getitem v k | Raise e => Raise e end)
          (Ok v) ks.
Proof.
  revert v. induction ks as [|k ks IH]; intros v; simpl; [reflexivity|].
  destruct (py_getitem v k) as [w|e].
  - apply IH.
  - symmetry. apply foldl_raise.
Qed.

(** C9: indexing with a tuple [(a, b, c, ...)] gives what chained single-key
    indexing [container[a][b][c]...] gives (the same value when every lookup
    succeeds, and the same exception otherwise), and leaves the container
    untouched. *)
Theorem getitem_tuple_is_chained (s : AnalysisData) (a : key) (rest : list key) :
  __getitem__ (ITuple (a :: rest)) s = (chained_index s a rest, s).
Proof.
  unfold chained_index, __getitem__. unfold_monad.
  cbn [getitem_chain fst].
  destruct (py_getitem (VDict (_data s)) a) as [v|e].
  - rewrite getitem_chain_foldl. reflexivity.
  - rewrite foldl_raise. reflexivity.
Qed.

End Indexing.

(** ** Saving *)

Section Saving.
Context `{Collaborators}.

(** [save], step by step. *)
Lemma save_eq (just_update : bool) (filepath : option string) (s : AnalysisData) :
  save just_update filepath s
  = if is_True (_read_only s) then (Raise (ValueError save_read_only_msg), s)
    else
      let s1 := set__last_update ∅ (set__last_data_saved true s) in
      match _check_if_filepath_was_set filepath (_filepath s) with
      | Raise e => (Raise e, s1)
      | Ok p =>
          call_save_dict (p +:+ ".h5")
            (if just_update then incremental_payload (_last_update s) (_data s)
             else _data s) s1
      end.
Proof.
  unfold save. unfold_monad. destruct (is_True (_read_only s)); [reflexivity|].
  cbn. destruct (_check_if_filepath_was_set filepath (_filepath s)); [|reflexivity].
  destruct just_update; reflexivity.
Qed.

(** [editing func], step by step. *)
Lemma editing_eq {A} (func : M A) (s : AnalysisData) :
  editing func s
  = match func (set__last_data_saved false s) with
    | (Ok res, s1) =>
        let s2 := set__repr None s1 in
        if _save_on_edit s2 then
          match save true None s2 with
          | (Ok _, s3) => (Ok res, s3)
          | (Raise e, s3) => (Raise e, s3)
          end
        else (Ok res, s2)
    | (Raise e, s1) => (Raise e, s1)
    end.
Proof.
  unfold editing, _clean_precalculated_results. unfold_monad. simpl.
  destruct (func _) as [[res|e] s1]; [|reflexivity].
  simpl. destruct (_save_on_edit s1); [|reflexivity].
  destruct (save true None _) as [[u|e] s3]; reflexivity.
Qed.

(** Once past the read-only check, [save] has emptied [_last_update],
    whatever happens next. *)
Lemma save_swaps_last_update (s : AnalysisData) (just_update : bool)
    (filepath : option string) :
  is_True (_read_only s) = false →
  _last_update (save just_update filepath s).2 = ∅
  ∧ _save_on_edit (save just_update filepath s).2 = _save_on_edit s.
Proof.
  intros Hnt. rewrite save_eq, Hnt.
  cbn zeta. destruct (_check_if_filepath_was_set _ _) as [p|e]; [|split; reflexivity].
  unfold call_save_dict. destruct (save_dict _ _ _); split; reflexivity.
Qed.

(** C1 (as the code has it): a save rejected because the container is fully
    read-only changes nothing, so [_last_update] is kept; every other save,
    whether it succeeds, finds no destination path or fails in the codec
    write, leaves [_last_update] empty. *)
Theorem save_dirty_keys (s : AnalysisData) (just_update : bool) (filepath : option string) :
  if is_True (_read_only s)
  then save just_update filepath s = (Raise (ValueError save_read_only_msg), s)
  else _last_update (save just_update filepath s).2 = ∅.
Proof.
  destruct (is_True (_read_only s)) eqn:Hnt.
  - rewrite save_eq, Hnt. reflexivity.
  - apply save_swaps_last_update, Hnt.
Qed.

End Saving.

(** C1, refuted as stated: with one dirty key, a save that finds no
    destination path and a save whose codec write fails both raise, and both
    leave [_last_update] empty instead of as it was. *)
Lemma save_failure_clears_dirty_keys :
  let H := stub false None in
  let s := after [OSetItem "a" (VInt 1)] (new None false None None).2 in
  _last_update s = {["a"]}
  ∧ (save true None s).1
    = Raise (ValueError "Should provide filepath or set self.filepath before saving")
  ∧ _last_update (save true None s).2 = ∅
  ∧ (save false (Some "run") s).1 = Raise OSError
  ∧ _last_update (save false (Some "run") s).2 = ∅
  ∧ _last_update (save true None s).2 ≠ _last_update s.
Proof.
  intros H s.
  assert (Hs : _last_update s = {["a"]}) by (vm_compute; reflexivity).
  assert (Hp : _last_update (save true None s).2 = ∅) by (vm_compute; reflexivity).
  split; [exact Hs|]. split; [vm_compute; reflexivity|]. split; [exact Hp|].
  split; [vm_compute; reflexivity|]. split; [vm_compute; reflexivity|].
  rewrite Hp, Hs. intros Heq.
  assert (Ha : "a" ∈ (∅ : gset string)) by (rewrite Heq; set_solver).
  set_solver.
Qed.

(** ** Construction *)

Section Construction.
Context `{Collaborators}.

(** C5 (as the code has it): with a file path, asking for [overwrite] or
    [save_on_edit] together with a truthy [read_only] makes the constructor
    raise; without a file path the constructor never raises. *)
Theorem init_read_only_conflict (filepath : string) (save_on_edit : bool)
    (read_only : read_only_t) (overwrite : option bool) :
  truthy_opt overwrite || save_on_edit = true →
  truthy read_only = true →
  (new (Some filepath) save_on_edit (Some read_only) overwrite).1
  = Raise (ValueError "Cannot open file in read_only mode and overwrite it.")
  ∧ ∀ ro, (new None save_on_edit ro overwrite).1 = Ok tt.
Proof.
  intros Hreq Hro. split.
  - unfold new, __init__. unfold_monad. simpl. rewrite Hreq, Hro. reflexivity.
  - intros ro. reflexivity.
Qed.

End Construction.

(** C5, refuted as stated: without a file path, [save_on_edit=True] together
    with [read_only=True] constructs a container. *)
Lemma init_conflict_without_path :
  let H := stub true None in
  new None true (Some (ROBool true)) None
  = (Ok tt,
     {| _repr := None; _last_data_saved := false; _filepath := None;
        _read_only := ROBool true; _data := ∅; _attrs := ∅; _last_update := ∅;
        _save_on_edit := true; calls := [] |}).
Proof. reflexivity. Qed.

Lemma init_read_only_conflict_witness :
  let H := stub true None in
  truthy_opt (Some true) || false = true
  ∧ truthy (ROBool true) = true
  ∧ (new (Some "run.h5") false (Some (ROBool true)) (Some true)).1
    = Raise (ValueError "Cannot open file in read_only mode and overwrite it.").
Proof.
  intros H. split; [reflexivity|]. split; [reflexivity|].
  exact (proj1 (init_read_only_conflict "run.h5" false (ROBool true) (Some true)
                  eq_refl eq_refl)).
Defined.

(** ** The flag [_last_data_saved] *)

Section SavedFlag.
Context `{Collaborators}.

Lemma init_last_data_saved fp soe ro ow :
  preserves _last_data_saved (__init__ fp soe ro ow).
Proof. unfold __init__, _load_from_h5, _update, os_remove. frame. Qed.

Lemma editing_last_data_saved {A} (func : M A) (s : AnalysisData) :
  preserves _last_data_saved func →
  preserves _save_on_edit func →
  (_save_on_edit s = false → _last_data_saved (editing func s).2 = false)
  ∧ (is_ok (editing func s).1 = true
     → _last_data_saved (editing func s).2 = _save_on_edit s).
Proof.
  intros Hflag Hauto. rewrite editing_eq.
  specialize (Hflag (set__last_data_saved false s)).
  specialize (Hauto (set__last_data_saved false s)).
  destruct (func (set__last_data_saved false s)) as [[res|e] s1]; simpl in *.
  - rewrite Hauto. destruct (_save_on_edit s).
    + split; [discriminate|]. rewrite save_eq. simpl.
      destruct (is_True (_read_only s1)); simpl; [discriminate|].
      destruct (_check_if_filepath_was_set None (_filepath s1)); simpl;
        [|discriminate].
      unfold call_save_dict. destruct (save_dict _ _ _); simpl;
        [reflexivity | discriminate].
    + simpl. split; intros _; exact Hflag.
  - split; [intros _; exact Hflag | discriminate].
Qed.

(** C8 (as the code has it): [_last_data_saved] is [False] on every freshly
    constructed container, empty or loaded.  [save] sets it as soon as the
    read-only check is passed, before the path is resolved and the codec is
    called, and leaves it alone when that check rejects the call.  A mutating
    call clears it on entry: without auto-save it is [False] afterwards even
    if the call raised, and after a mutating call that returned it equals
    [_save_on_edit].  Locking, unlocking and reading do not touch it. *)
Theorem last_data_saved_meaning :
  (∀ fp soe ro ow, _last_data_saved (new fp soe ro ow).2 = false)
  ∧ ∀ (s : AnalysisData) (o : op),
      match o with
      | OSave _ _ =>
          _last_data_saved (call o s).2
          = if is_True (_read_only s) then _last_data_saved s else true
      | OSetItem _ _ | OPop _ | ODelItem _ | OUpdate _ =>
          (_save_on_edit s = false → _last_data_saved (call o s).2 = false)
          ∧ (is_ok (call o s).1 = true
             → _last_data_saved (call o s).2 = _save_on_edit s)
      | OLock _ | OUnlock _ | OGet _ _ | OGetItem _ =>
          _last_data_saved (call o s).2 = _last_data_saved s
      end.
Proof.
  split.
  - intros fp soe ro ow. unfold new. rewrite init_last_data_saved. reflexivity.
  - intros s o. destruct o; simpl.
    + assert (Hp : preserves _last_data_saved (lock_data keys_))
        by (unfold lock_data, read_only_add; frame).
      apply Hp.
    + assert (Hp : preserves _last_data_saved (clean_lock remove_keys))
        by (unfold clean_lock, read_only_remove; frame).
      apply Hp.
    + apply editing_last_data_saved; apply setitem_body_frame; reflexivity.
    + apply editing_last_data_saved; apply pop_body_frame; reflexivity.
    + apply editing_last_data_saved; apply pop_body_frame; reflexivity.
    + apply editing_last_data_saved; apply update_body_frame; reflexivity.
    + rewrite save_eq. destruct (is_True (_read_only s)); [reflexivity|].
      cbn zeta. destruct (_check_if_filepath_was_set _ _); [|reflexivity].
      unfold call_save_dict. destruct (save_dict _ _ _); reflexivity.
    + reflexivity.
    + assert (Hp : preserves _last_data_saved (void (__getitem__ i)))
        by (unfold void, __getitem__; frame).
      apply Hp.
Qed.

End SavedFlag.

(** C8, refuted as stated: a freshly constructed container, never mutated,
    has [_last_data_saved = False], and so has one freshly loaded from an
    existing file.  A save that finds no path leaves the flag [True] although
    the mutation before it was never written, and a [pop] of an absent key
    clears the flag although it changed nothing since the save. *)
Lemma fresh_container_not_saved :
  let fresh := (@new (stub true None) None false None None).2 in
  let loaded :=
    (@new (stub true (Some {["x" := VInt 5]})) (Some "run") false None (Some false)).2 in
  let H := stub true None in
  let unsaved := after [OSetItem "a" (VInt 1); OSave false None] fresh in
  let saved := after [OSetItem "a" (VInt 1); OSave false (Some "run")] fresh in
  _last_data_saved fresh = false
  ∧ (_data loaded = {["x" := VInt 5]} ∧ _last_data_saved loaded = false)
  ∧ (calls unsaved = [] ∧ _last_data_saved unsaved = true)
  ∧ (_last_data_saved saved = true
     ∧ (pop "zz" saved).1 = Raise (KeyError (KStr "zz"))
     ∧ _data (pop "zz" saved).2 = _data saved
     ∧ _last_data_saved (pop "zz" saved).2 = false).
Proof.
  intros fresh loaded H unsaved saved.
  split; [reflexivity|].
  split; [split; vm_compute; reflexivity|].
  split; [split; vm_compute; reflexivity|].
  split; [vm_compute; reflexivity|]. split; [vm_compute; reflexivity|].
  split; vm_compute; reflexivity.
Qed.

(** ** Array handles *)

Section ArrayHandles.
Context `{Collaborators}.

Lemma check_read_only_true_is_True (key : string) (s : AnalysisData) :
  is_True (_read_only s) = true → __check_read_only_true key s = true.
Proof.
  unfold __check_read_only_true. destruct (_read_only s) as [[|]|locked];
    simpl; intros Ht; congruence.
Qed.

Lemma setattr_public (name : string) (v : value) :
  startswith name "_" = false → __setattr__ name v = __setitem__ name v.
Proof. intros Hn. unfold __setattr__. rewrite Hn. reflexivity. Qed.

(** C7: on a key the lock does not protect, assigning a value that
    normalises to an array handle raises a [ValueError] unless the container
    has both a bound file path and [save_on_edit].  When both are there, the
    handle is bound to the container's path and to the key before it is
    stored in [_data], and the call returns once the write of the auto-save
    that follows every edit has gone through (it raises that write's error
    otherwise).  Attribute assignment of a public name is the same call. *)
Theorem setitem_array_handle (s : AnalysisData) (k : string) (v : value) (h : H5NpArray) :
  transform_to_possible_formats v = VH5 h →
  __check_read_only_true k s = false →
  (startswith k "_" = false → __setattr__ k v = __setitem__ k v)
  ∧ match _filepath s with
    | None =>
        (__setitem__ k v s).1
        = Raise (ValueError "Cannot create a H5NpArray object without specifying a file")
    | Some fp =>
        if _save_on_edit s then
          let stored := <[k := VH5 (__init__filepath__ fp k h)]> (_data s) in
          let written :=
            save_dict (calls s) (rstrip ".h5" fp +:+ ".h5")
              (incremental_payload (_last_update s ∪ {[k]}) stored) in
          _data (__setitem__ k v s).2 = stored
          ∧ (__setitem__ k v s).1 = (if written then Ok tt else Raise OSError)
        else
          (__setitem__ k v s).1
          = Raise (ValueError "Cannot use H5NpArray is save_on_edit=False")
    end.
Proof.
  intros Hv Hk. split; [apply setattr_public|].
  assert (Hnt : is_True (_read_only s) = false).
  { destruct (is_True (_read_only s)) eqn:Ht; [|reflexivity].
    rewrite (check_read_only_true_is_True k s Ht) in Hk. discriminate. }
  unfold __setitem__. rewrite editing_eq.
  unfold setitem_body, __add_key. unfold_monad. cbn -[incremental_payload].
  unfold __check_read_only_true in Hk |- *. cbn -[incremental_payload].
  rewrite Hk, Hv.
  destruct (_filepath s) as [fp|] eqn:Hfp; [|reflexivity].
  destruct (_save_on_edit s) eqn:Hauto; [|reflexivity].
  cbn -[incremental_payload]. rewrite Hauto. rewrite save_eq.
  cbn -[incremental_payload]. rewrite Hnt, Hfp.
  assert (Hpath : _check_if_filepath_was_set None (Some fp) = Ok (rstrip ".h5" fp)).
  { unfold _check_if_filepath_was_set. simpl. reflexivity. }
  rewrite Hpath. unfold call_save_dict. cbn -[incremental_payload].
  destruct (save_dict _ _ _); split; reflexivity.
Qed.

End ArrayHandles.

Lemma setitem_array_handle_witness :
  let H := stub true None in
  let h := MkH5NpArray [1; 2]%Z None None in
  let s := (new (Some "run") true None None).2 in
  transform_to_possible_formats (VH5 h) = VH5 h
  ∧ __check_read_only_true "arr" s = false
  ∧ _data (__setitem__ "arr" (VH5 h) s).2
    = {["arr" := VH5 (MkH5NpArray [1; 2]%Z (Some "run.h5") (Some "arr"))]}
  ∧ (__setitem__ "arr" (VH5 h) s).1 = Ok tt.
Proof.
  intros H h s.
  split; [reflexivity|]. split; [vm_compute; reflexivity|].
  pose proof (setitem_array_handle s "arr" (VH5 h) h eq_refl eq_refl) as [_ Hw].
  change (_filepath s) with (Some "run.h5") in Hw.
  change (_save_on_edit s) with true in Hw.
  cbv beta iota zeta in Hw. destruct Hw as [Hd Hr]. split.
  - rewrite Hd. vm_compute. reflexivity.
  - rewrite Hr. reflexivity.
Defined.

(** ** Dirty keys and the incremental save *)

Section DirtyKeys.
Context `{Collaborators}.

Lemma incremental_payload_lookup (X : gset string) (d : gmap string value) (k : string) :
  incremental_payload X d !! k
  = if decide (k ∈ X) then Some (default VNone (d !! k)) else None.
Proof.
  unfold incremental_payload. destruct (decide (k ∈ X)) as [Hin|Hout].
  - apply lookup_set_to_map; [intros y y' _ _ Hy; exact Hy|]. eauto.
  - apply eq_None_not_Some. intros [v Hv].
    apply lookup_set_to_map in Hv as (y & Hy & Hf);
      [|intros a b _ _ Hab; exact Hab].
    simplify_eq. contradiction.
Qed.

Lemma incremental_payload_dom (X : gset string) (d : gmap string value) :
  dom (incremental_payload X d) = X.
Proof.
  apply set_eq. intros k. rewrite elem_of_dom, incremental_payload_lookup.
  destruct (decide (k ∈ X)) as [Hin|Hout]; split; intros Hk; eauto.
  - destruct Hk as [v Hv]. discriminate.
  - contradiction.
Qed.

(** What a loop of [update] that runs to its end has done. *)
Lemma update_loop_ok kwds s kwds' s' :
  update_loop kwds s = (Ok kwds', s') →
  _last_update s' = _last_update s ∪ list_to_set kwds.*1
  ∧ _attrs s' = _attrs s ∪ list_to_set kwds.*1
  ∧ kwds'.*1 = kwds.*1.
Proof.
  revert s kwds' s'. induction kwds as [|[key v] kwds IH]; intros s kwds' s'; simpl.
  - unfold_monad. intros Heq. inversion Heq; subst.
    split; [set_solver|]. split; [set_solver|done].
  - unfold __add_key. unfold_monad. simpl.
    destruct (__check_read_only_true key s); simpl; [discriminate|].
    destruct (update_loop kwds _) as [[rest|e] s1] eqn:Hloop; [|discriminate].
    intros Heq. inversion Heq; subst.
    apply IH in Hloop as (Hu & Ha & Hk). simpl in *.
    split; [rewrite Hu; set_solver|]. split; [rewrite Ha; set_solver|].
    f_equal. exact Hk.
Qed.

Lemma body_of_last_update (o : op) (s s' : AnalysisData) :
  is_save o = false →
  body_of o s = (Ok tt, s') →
  _last_update s' = _last_update s ∪ touched o.
Proof.
  intros Hns Hrun.
  assert (Hsame : ∀ m : M unit, preserves _last_update m → m s = (Ok tt, s') →
                  _last_update s' = _last_update s ∪ ∅).
  { intros m Hm Hms. specialize (Hm s). rewrite Hms in Hm. simpl in Hm.
    rewrite Hm. set_solver. }
  destruct o; simpl in *; try discriminate.
  - apply (Hsame (lock_data keys_)); [|exact Hrun].
    unfold lock_data, read_only_add. frame.
  - apply (Hsame (clean_lock remove_keys)); [|exact Hrun].
    unfold clean_lock, read_only_remove. frame.
  - revert Hrun. unfold setitem_body, __add_key. unfold_monad. simpl.
    repeat case_match; simpl; intros; simplify_eq; reflexivity.
  - revert Hrun. unfold pop_body, __del_key. unfold_monad. simpl.
    repeat case_match; simpl; intros; simplify_eq; reflexivity.
  - revert Hrun. unfold pop_body, __del_key. unfold_monad. simpl.
    repeat case_match; simpl; intros; simplify_eq; reflexivity.
  - revert Hrun. unfold update_body. unfold_monad.
    destruct (update_loop kwds s) as [[kwds'|e] s1] eqn:Hloop; [|discriminate].
    intros Heq. inversion Heq; subst.
    apply update_loop_ok in Hloop as (Hu & _ & _). exact Hu.
  - apply (Hsame (void (get k default_))); [|exact Hrun]. unfold void, get. frame.
  - apply (Hsame (void (__getitem__ i))); [|exact Hrun].
    unfold void, __getitem__. frame.
Qed.

Lemma call_eq (o : op) :
  call o = if is_mutation o then editing (body_of o) else body_of o.
Proof. destruct o; reflexivity. Qed.

(** Apart from [save], a method body assigns nothing but [_attrs],
    [_last_update], [_data] and [_read_only]. *)
Lemma body_of_frame {X} (f : AnalysisData → X) (o : op) :
  (∀ v s, f (set__attrs v s) = f s) →
  (∀ v s, f (set__last_update v s) = f s) →
  (∀ v s, f (set__data v s) = f s) →
  (∀ v s, f (set__read_only v s) = f s) →
  is_save o = false →
  preserves f (body_of o).
Proof.
  intros Ha Hu Hd Hr Hns. destruct o; simpl in *; try discriminate.
  - unfold lock_data, read_only_add. frame.
    all: try (destruct (_read_only _); simplify_eq; simpl; rewrite ?Hr; reflexivity).
  - unfold clean_lock, read_only_remove. frame.
    all: try (destruct (_read_only _); simplify_eq; simpl; rewrite ?Hr; reflexivity).
  - apply setitem_body_frame; assumption.
  - apply pop_body_frame; assumption.
  - apply pop_body_frame; assumption.
  - apply update_body_frame; assumption.
  - unfold void, get. frame.
  - unfold void, __getitem__. frame.
Qed.

Lemma read_only_add_is_True key :
  preserves (λ s, is_True (_read_only s)) (read_only_add key).
Proof.
  intros s. unfold read_only_add.
  destruct (_read_only s) eqn:E; simpl; rewrite ?E; reflexivity.
Qed.

Lemma read_only_remove_is_True key :
  preserves (λ s, is_True (_read_only s)) (read_only_remove key).
Proof.
  intros s. unfold read_only_remove.
  destruct (_read_only s) eqn:E; simpl; [rewrite E; reflexivity|].
  case_bool_decide; simpl; rewrite ?E; reflexivity.
Qed.

(** No call turns a container that is not fully read-only into one that
    is. *)
Lemma body_of_not_fully_locked (o : op) (s : AnalysisData) :
  is_save o = false →
  is_True (_read_only s) = false →
  is_True (_read_only (body_of o s).2) = false.
Proof.
  intros Hns Hnt.
  assert (Hframe : preserves _read_only (body_of o) →
                   is_True (_read_only (body_of o s).2) = false).
  { intros Hp. rewrite Hp. exact Hnt. }
  destruct o; simpl in *; try discriminate.
  - clear Hframe. unfold lock_data. unfold_monad. rewrite Hnt.
    destruct (isinstance_set (_read_only s)) eqn:Hset; cbn [negb].
    + rewrite (preserves_for_each (λ s, is_True (_read_only s)));
        [exact Hnt | apply read_only_add_is_True].
    + unfold M in *.
      rewrite (preserves_for_each (λ s, is_True (_read_only s)));
        [reflexivity | apply read_only_add_is_True].
  - clear Hframe. unfold clean_lock. unfold_monad. rewrite Hnt.
    destruct (isinstance_set (_read_only s)); [|exact Hnt].
    destruct remove_keys; [reflexivity| |];
      (rewrite (preserves_for_each (λ s, is_True (_read_only s)));
        [exact Hnt | apply read_only_remove_is_True]).
  - apply Hframe, setitem_body_frame; reflexivity.
  - apply Hframe, pop_body_frame; reflexivity.
  - apply Hframe, pop_body_frame; reflexivity.
  - apply Hframe, update_body_frame; reflexivity.
  - exact Hnt.
  - apply Hframe. unfold void, __getitem__. frame.
Qed.

(** One call that returns, on a container without auto-save. *)
Lemma call_manual (o : op) (s s' : AnalysisData) :
  _save_on_edit s = false →
  is_save o = false →
  call o s = (Ok tt, s') →
  _last_update s' = _last_update s ∪ touched o
  ∧ _save_on_edit s' = false
  ∧ (is_True (_read_only s) = false → is_True (_read_only s') = false).
Proof.
  intros Hauto Hns. rewrite call_eq.
  pose proof (body_of_frame _save_on_edit o
                (λ _ _, eq_refl) (λ _ _, eq_refl) (λ _ _, eq_refl) (λ _ _, eq_refl) Hns)
    as Hsoe.
  destruct (is_mutation o) eqn:Hmut.
  - rewrite editing_eq. specialize (Hsoe (set__last_data_saved false s)).
    pose proof (body_of_not_fully_locked o (set__last_data_saved false s) Hns) as Hnt.
    destruct (body_of o (set__last_data_saved false s)) as [[[]|e] s1] eqn:Hbody;
      [|discriminate].
    simpl in Hsoe, Hnt. cbn zeta. cbn [_save_on_edit set__repr].
    rewrite Hsoe. simpl. rewrite Hauto. intros Heq. inversion Heq; subst s'.
    apply body_of_last_update in Hbody; [|exact Hns].
    simpl in *. split; [exact Hbody|]. split; [congruence | exact Hnt].
  - intros Hbody. specialize (Hsoe s).
    pose proof (body_of_not_fully_locked o s Hns) as Hnt.
    rewrite Hbody in Hsoe, Hnt. simpl in *.
    apply body_of_last_update in Hbody; [|exact Hns].
    split; [exact Hbody|]. split; [congruence | exact Hnt].
Qed.

(** A run of calls that all return, none of them a [save], on a container
    without auto-save: the dirty set has grown by exactly the keys the
    mutating calls named. *)
Lemma calls_manual (ops : list op) (s s' : AnalysisData) :
  _save_on_edit s = false →
  Forall (λ o, is_save o = false) ops →
  for_each ops call s = (Ok tt, s') →
  _last_update s' = _last_update s ∪ ⋃ (touched <$> ops)
  ∧ (is_True (_read_only s) = false → is_True (_read_only s') = false).
Proof.
  revert s. induction ops as [|o ops IH]; intros s Hauto Hns; simpl.
  - unfold_monad. intros Heq. inversion Heq; subst. split; [set_solver|auto].
  - inversion Hns as [|? ? Ho Hops]; subst. unfold_monad.
    destruct (call o s) as [[[]|e] s1] eqn:Hcall; [|discriminate].
    intros Hrest. apply call_manual in Hcall as (Hu & Hsoe & Hnt); [|assumption..].
    apply IH in Hrest as (Hu' & Hnt'); [|assumption..].
    split; [rewrite Hu', Hu; set_solver | auto].
Qed.

Lemma save_ok ju fp (s s1 : AnalysisData) :
  save ju fp s = (Ok tt, s1) →
  is_True (_read_only s) = false
  ∧ _last_update s1 = ∅
  ∧ _save_on_edit s1 = _save_on_edit s
  ∧ _read_only s1 = _read_only s.
Proof.
  rewrite save_eq. destruct (is_True (_read_only s)); [discriminate|].
  cbn zeta. destruct (_check_if_filepath_was_set _ _) as [p|e]; [|discriminate].
  unfold call_save_dict. destruct (save_dict _ _ _); [|discriminate].
  intros Heq. inversion Heq; subst s1. auto.
Qed.

(** An incremental save that reaches the codec hands it the dirty keys, each
    with its current value or [None]. *)
Lemma save_incremental_call fp p (s : AnalysisData) :
  is_True (_read_only s) = false →
  _check_if_filepath_was_set fp (_filepath s) = Ok p →
  calls (save true fp s).2
  = (calls s ++ [EvSaveDict (p +:+ ".h5")
                   (incremental_payload (_last_update s) (_data s))])%list
  ∧ _data (save true fp s).2 = _data s.
Proof.
  intros Hnt Hp. rewrite save_eq, Hnt. cbn zeta. rewrite Hp.
  unfold call_save_dict. destruct (save_dict _ _ _); split; reflexivity.
Qed.

(** With auto-save, a mutating call that returns has saved. *)
Lemma call_auto_ok (o : op) (s s' : AnalysisData) :
  _save_on_edit s = true →
  is_mutation o = true →
  call o s = (Ok tt, s') →
  _last_update s' = ∅ ∧ _save_on_edit s' = true.
Proof.
  intros Hauto Hmut. rewrite call_eq, Hmut, editing_eq.
  assert (Hns : is_save o = false) by (destruct o; done).
  pose proof (body_of_frame _save_on_edit o
                (λ _ _, eq_refl) (λ _ _, eq_refl) (λ _ _, eq_refl) (λ _ _, eq_refl)
                Hns (set__last_data_saved false s)) as Hsoe.
  destruct (body_of o (set__last_data_saved false s)) as [[[]|e] s1]; [|discriminate].
  simpl in Hsoe. cbn zeta. cbn [_save_on_edit set__repr]. rewrite Hsoe, Hauto.
  destruct (save true None (set__repr None s1)) as [[[]|e] s3] eqn:Hsave;
    [|discriminate].
  intros Heq. inversion Heq; subst s'.
  apply save_ok in Hsave as (_ & Hclean & Hsoe3 & _).
  split; [exact Hclean|]. rewrite Hsoe3. simpl. congruence.
Qed.

(** X25: the payload of an incremental save on runs in which every call
    returned.  Without auto-save: after a save on a container that is not
    fully read-only, and any run of calls that all returned and of which none
    is a save, a [save(just_update=True)] that finds a path hands [save_dict]
    a mapping whose keys are exactly the keys the mutating calls of the run
    named, however often; a key still in [_data] comes with its current
    value, a key no longer there with [None].  With auto-save every mutating
    call that returns ends in a save, so one mutating call lies between two
    saves: it issues one write, for exactly the keys it named. *)
Theorem incremental_save_payload :
  (∀ (s0 s2 : AnalysisData) ju0 fp0 (ops : list op) fp p,
     is_True (_read_only s0) = false →
     _save_on_edit s0 = false →
     Forall (λ o, is_save o = false) ops →
     for_each ops call (save ju0 fp0 s0).2 = (Ok tt, s2) →
     _check_if_filepath_was_set fp (_filepath s2) = Ok p →
     ∃ payload,
       calls (save true fp s2).2 = (calls s2 ++ [EvSaveDict (p +:+ ".h5") payload])%list
       ∧ dom payload = ⋃ (touched <$> ops)
       ∧ ∀ k, k ∈ ⋃ (touched <$> ops) →
              payload !! k = Some (default VNone (_data s2 !! k)))
  ∧ (∀ (s0 s1 s2 : AnalysisData) (prior o : op),
       _save_on_edit s0 = true →
       is_save prior || is_mutation prior = true →
       call prior s0 = (Ok tt, s1) →
       is_mutation o = true →
       call o s1 = (Ok tt, s2) →
       ∃ filename payload,
         calls s2 = (calls s1 ++ [EvSaveDict filename payload])%list
         ∧ dom payload = touched o
         ∧ ∀ k, k ∈ touched o →
                payload !! k = Some (default VNone (_data s2 !! k))).
Proof.
  split.
  - intros s0 s2 ju0 fp0 ops fp p Hnt Hauto Hns Hrun Hp.
    destruct (save_swaps_last_update s0 ju0 fp0 Hnt) as [Hclean Hsoe].
    pose proof (save_read_only ju0 fp0 s0) as Hro.
    apply calls_manual in Hrun as (Hu & Hnt2); [|congruence|exact Hns].
    rewrite Hclean, union_empty_l_L in Hu. rewrite Hro in Hnt2.
    destruct (save_incremental_call fp p s2 (Hnt2 Hnt) Hp) as [Hcalls _].
    eexists. split; [exact Hcalls|]. rewrite Hu. split.
    + apply incremental_payload_dom.
    + intros k Hk. rewrite incremental_payload_lookup.
      destruct (decide _); [reflexivity | contradiction].
  - intros s0 s s' prior o Hauto0 Hkind Hprior Hmut.
    assert (Hstart : _last_update s = ∅ ∧ _save_on_edit s = true).
    { destruct (is_mutation prior) eqn:Hpm.
      - apply (call_auto_ok prior s0 s Hauto0 Hpm Hprior).
      - rewrite orb_false_r in Hkind. destruct prior; try discriminate.
        simpl in Hprior. apply save_ok in Hprior as (_ & Hc & Hs & _).
        split; [exact Hc | congruence]. }
    destruct Hstart as [Hclean Hauto]. clear Hprior Hkind Hauto0.
    rewrite call_eq, Hmut, editing_eq.
    assert (Hns : is_save o = false) by (destruct o; done).
    pose proof (body_of_frame _save_on_edit o
                  (λ _ _, eq_refl) (λ _ _, eq_refl) (λ _ _, eq_refl) (λ _ _, eq_refl)
                  Hns (set__last_data_saved false s)) as Hsoe.
    pose proof (body_of_frame calls o
                  (λ _ _, eq_refl) (λ _ _, eq_refl) (λ _ _, eq_refl) (λ _ _, eq_refl)
                  Hns (set__last_data_saved false s)) as Hcalls.
    destruct (body_of o (set__last_data_saved false s)) as [[[]|e] s1] eqn:Hbody;
      [|discriminate].
    apply body_of_last_update in Hbody; [|exact Hns].
    simpl in Hsoe, Hcalls, Hbody. rewrite Hclean, union_empty_l_L in Hbody.
    cbn zeta. cbn [_save_on_edit set__repr]. rewrite Hsoe, Hauto.
    rewrite save_eq. cbn [_read_only _filepath _last_update _data set__repr].
    destruct (is_True (_read_only s1)); [discriminate|]. cbn zeta.
    destruct (_check_if_filepath_was_set None (_filepath s1)) as [p|e]; [|discriminate].
    unfold call_save_dict. destruct (save_dict _ _ _); [|discriminate].
    intros Heq. inversion Heq; subst s'. simpl.
    eexists _, _. split; [rewrite Hcalls; reflexivity|].
    rewrite Hbody. split.
    + apply incremental_payload_dom.
    + intros k Hk. rewrite incremental_payload_lookup.
      destruct (decide _); [reflexivity | contradiction].
Qed.

End DirtyKeys.

(** ** Partially locked containers *)

Section PartialLock.
Context `{Collaborators}.

Lemma check_read_only_true_set (key : string) (s : AnalysisData) (locked : gset string) :
  _read_only s = ROSet locked →
  __check_read_only_true key s = bool_decide (key ∈ locked).
Proof.
  intros Hro. unfold __check_read_only_true. rewrite Hro. simpl.
  case_bool_decide as Hne; [reflexivity|].
  simpl. symmetry. apply bool_decide_eq_false.
  intros Hin. set_solver.
Qed.

Lemma editing_raise {A} (func : M A) (s s1 : AnalysisData) (e : exn) :
  func (set__last_data_saved false s) = (Raise e, s1) →
  editing func s = (Raise e, s1).
Proof. intros Hf. rewrite editing_eq, Hf. reflexivity. Qed.










(** C2, where the code breaks it: on a container whose [_read_only] is the
    set [locked], an [update] that names an unlocked key [c] before a locked
    key [b] raises the read-only error for [b] only after [c] has been
    entered in [_attrs] and [_last_update]; [_data] is not touched.  The
    container is not as it was before the call, whereas [__setitem__] and
    [pop] check the lock before they change anything. *)
Theorem update_registers_keys_before_locked_one (s : AnalysisData)
    (locked : gset string) (c b : string) (v w : value) (rest : list (string * value)) :
  _read_only s = ROSet locked →
  c ∉ locked →
  b ∈ locked →
  update ((c, v) :: (b, w) :: rest) s
  = (Raise (read_only_error b),
     set__last_update (_last_update s ∪ {[c]})
       (set__attrs (_attrs s ∪ {[c]}) (set__last_data_saved false s))).
Proof.
  intros Hro Hc Hb. unfold update. apply editing_raise.
  unfold update_body. cbn [update_loop]. unfold __add_key. unfold_monad.
  rewrite (check_read_only_true_set c _ locked) by exact Hro.
  rewrite bool_decide_eq_false_2 by exact Hc. cbn.
  rewrite (check_read_only_true_set b _ locked) by exact Hro.
  rewrite bool_decide_eq_true_2 by exact Hb. reflexivity.
Qed.

End PartialLock.

(** ** [_attrs] against the keys of [_data] *)

Section KnownKeys.
Context `{Collaborators}.

Lemma dict_update_dom (d : gmap string value) (kwds : list (string * value)) :
  dom (dict_update d kwds) = dom d ∪ list_to_set kwds.*1.
Proof.
  unfold dict_update. revert d. induction kwds as [|[k v] kwds IH]; intros d; simpl.
  - set_solver.
  - rewrite IH, dom_insert_L. set_solver.
Qed.

Lemma body_of_known_keys (o : op) (s s' : AnalysisData) :
  is_save o = false →
  _attrs s = dom (_data s) →
  body_of o s = (Ok tt, s') →
  _attrs s' = dom (_data s').
Proof.
  intros Hns Hinv Hrun.
  assert (Hsame : ∀ m : M unit,
            preserves _attrs m → preserves _data m → m s = (Ok tt, s') →
            _attrs s' = dom (_data s')).
  { intros m Ha Hd Hms. specialize (Ha s). specialize (Hd s).
    rewrite Hms in Ha, Hd. simpl in *. congruence. }
  destruct o; simpl in *; try discriminate.
  - apply (Hsame (lock_data keys_)); try exact Hrun;
      unfold lock_data, read_only_add; frame.
  - apply (Hsame (clean_lock remove_keys)); try exact Hrun;
      unfold clean_lock, read_only_remove; frame.
  - revert Hrun. unfold setitem_body, __add_key. unfold_monad. simpl.
    repeat case_match; simpl; intros; simplify_eq; simpl;
      rewrite dom_insert_L, Hinv; set_solver.
  - revert Hrun. unfold pop_body, __del_key. unfold_monad. simpl.
    repeat case_match; simpl; intros; simplify_eq; simpl;
      rewrite dom_delete_L, Hinv; reflexivity.
  - revert Hrun. unfold pop_body, __del_key. unfold_monad. simpl.
    repeat case_match; simpl; intros; simplify_eq; simpl;
      rewrite dom_delete_L, Hinv; reflexivity.
  - revert Hrun. unfold update_body. unfold_monad.
    destruct (update_loop kwds s) as [[kwds'|e] s1] eqn:Hloop; [|discriminate].
    intros Heq. inversion Heq; subst. simpl.
    pose proof (update_loop_frame _data (λ _ _, eq_refl) (λ _ _, eq_refl) kwds s)
      as Hd.
    rewrite Hloop in Hd. simpl in Hd.
    apply update_loop_ok in Hloop as (_ & Ha & Hk).
    rewrite dict_update_dom, Hk, Ha, Hd, Hinv. reflexivity.
  - apply (Hsame (void (get k default_))); try exact Hrun; unfold void, get; frame.
  - apply (Hsame (void (__getitem__ i))); try exact Hrun;
      unfold void, __getitem__; frame.
Qed.

Lemma save_known_keys ju fp (s : AnalysisData) :
  _attrs (save ju fp s).2 = _attrs s ∧ _data (save ju fp s).2 = _data s.
Proof.
  rewrite save_eq. destruct (is_True (_read_only s)); [done|].
  cbn zeta. destruct (_check_if_filepath_was_set _ _); [|done].
  unfold call_save_dict. destruct (save_dict _ _ _); done.
Qed.

(** The constructor leaves [_attrs] equal to the keys of [_data]. *)
Lemma new_known_keys fp soe ro ow :
  _attrs (new fp soe ro ow).2 = dom (_data (new fp soe ro ow).2).
Proof.
  unfold new, __init__, _load_from_h5, _update, os_remove. unfold_monad.
  destruct fp as [fp|]; simpl; [|rewrite dom_empty_L; reflexivity].
  repeat case_match; simplify_eq; simpl;
    rewrite ?dom_union_L, ?dom_empty_L; set_solver.
Qed.

(** Every call that returns keeps [_attrs] equal to the keys of [_data]. *)
Lemma call_known_keys (o : op) (s s' : AnalysisData) :
  _attrs s = dom (_data s) →
  call o s = (Ok tt, s') →
  _attrs s' = dom (_data s').
Proof.
  intros Hinv. destruct (is_save o) eqn:Hsave.
  - destruct o; try discriminate. simpl. intros Hrun.
    destruct (save_known_keys just_update filepath s) as [Ha Hd].
    rewrite Hrun in Ha, Hd. simpl in *. congruence.
  - rewrite call_eq. destruct (is_mutation o); [|apply body_of_known_keys; assumption].
    rewrite editing_eq.
    destruct (body_of o (set__last_data_saved false s)) as [[[]|e] s1] eqn:Hbody;
      [|discriminate].
    apply body_of_known_keys in Hbody; [|exact Hsave|exact Hinv].
    cbn zeta. destruct (_save_on_edit _).
    + destruct (save_known_keys true None (set__repr None s1)) as [Ha Hd].
      destruct (save true None _) as [[[]|e] s3]; [|discriminate].
      intros Heq. inversion Heq; subst. simpl in *. congruence.
    + intros Heq. inversion Heq; subst. exact Hbody.
Qed.

End KnownKeys.

(** C4, evaluated where the code breaks it: on a container holding [a] and
    locking [b], [update(c=3, b=2)] raises the read-only error for [b] after
    [c] was already entered in [_attrs] and [_last_update], so [_attrs] is
    [{a, c}] while [_data] still has the key [a] only: [__dir__] then lists
    [c], and reading the attribute [c] raises.  Assigning an array handle on
    a container without a file path does the same to [arr]. *)
Theorem failed_update_leaves_unknown_key :
  let H := stub true None in
  let s := after [OSetItem "a" (VInt 1); OLock (KeysStr "b")]
                 (new None false None None).2 in
  let upd := update [("c", VInt 3); ("b", VInt 2)] s in
  let set := __setitem__ "arr" (VH5 (MkH5NpArray [1; 2]%Z None None)) s in
  _attrs s = dom (_data s)
  ∧ upd.1 = Raise (TypeError "Cannot set a read-only 'b' attribute")
  ∧ _attrs upd.2 = {["a"; "c"]}
  ∧ _last_update upd.2 = {["a"; "c"]}
  ∧ dom (_data upd.2) = {["a"]}
  ∧ (∃ names, (__dir__ upd.2).1 = Ok names ∧ "c" ∈ names)
  ∧ (__getattr__ "c" upd.2).1 = Raise (AttributeError "No attribute c found in AnalysisData")
  ∧ set.1 = Raise (ValueError "Cannot create a H5NpArray object without specifying a file")
  ∧ _attrs set.2 = {["a"; "arr"]}
  ∧ dom (_data set.2) = {["a"]}.
Proof.
  intros H s upd set.
  split; [vm_compute; reflexivity|]. split; [vm_compute; reflexivity|].
  split; [vm_compute; reflexivity|]. split; [vm_compute; reflexivity|].
  split; [vm_compute; reflexivity|].
  split; [eexists; split; [vm_compute; reflexivity | set_solver]|].
  split; [vm_compute; reflexivity|]. split; [vm_compute; reflexivity|].
  split; vm_compute; reflexivity.
Qed.


Lemma update_registers_keys_before_locked_one_witness :
  let H := stub true None in
  let s := after [OSetItem "a" (VInt 1); OLock (KeysStr "b")]
                 (new None false None None).2 in
  let upd := update [("c", VInt 3); ("b", VInt 2)] s in
  _read_only s = ROSet {["b"]}
  ∧ ("c" ∉ ({["b"]} : gset string))
  ∧ "b" ∈ ({["b"]} : gset string)
  ∧ upd.1 = Raise (read_only_error "b")
  ∧ _attrs s = {["a"]}
  ∧ _attrs upd.2 = {["a"]} ∪ {["c"]}
  ∧ _last_update upd.2 = {["a"]} ∪ {["c"]}
  ∧ _data upd.2 = _data s.
Proof.
  intros H s upd.
  assert (Hro : _read_only s = ROSet {["b"]}) by (vm_compute; reflexivity).
  assert (Hc : "c" ∉ ({["b"]} : gset string))
    by (apply (bool_decide_unpack _); vm_compute; reflexivity).
  assert (Hb : "b" ∈ ({["b"]} : gset string))
    by (apply (bool_decide_unpack _); vm_compute; reflexivity).
  assert (Ha : _attrs s = {["a"]}) by (vm_compute; reflexivity).
  assert (Hu : _last_update s = {["a"]}) by (vm_compute; reflexivity).
  split; [exact Hro|]. split; [exact Hc|]. split; [exact Hb|].
  subst upd.
  rewrite (update_registers_keys_before_locked_one s {["b"]} "c" "b"
             (VInt 3) (VInt 2) [] Hro Hc Hb).
  cbn [fst snd _attrs _last_update _data set__last_update set__attrs
       set__last_data_saved].
  rewrite Ha, Hu. repeat (split; [reflexivity|]). reflexivity.
Defined.

(** ** The properties on concrete containers *)

Lemma fully_locked_is_final_witness :
  let H := stub true (Some {["x" := VInt 5]}) in
  let s := (new (Some "run") false None None).2 in
  let ops := [OUnlock KeysNone; OLock (KeysStr "x"); OSetItem "x" (VInt 6);
              OPop "x"; OUpdate [("y", VInt 1)]; OSave false (Some "copy")] in
  _read_only s = ROBool true ∧ _read_only (after ops s) = ROBool true.
Proof.
  intros H s ops.
  assert (Hs : _read_only s = ROBool true) by (vm_compute; reflexivity).
  split; [exact Hs|]. exact (proj1 (fully_locked_is_final s ops Hs)).
Defined.

Lemma clean_lock_unlocked_witness :
  let H := stub true None in
  let s := (new None false None None).2 in
  _read_only s = ROBool false
  ∧ clean_lock (KeysIter ["never"; "locked"]) s = (Ok tt, s).
Proof.
  intros H s.
  assert (Hs : _read_only s = ROBool false) by reflexivity.
  split; [exact Hs|]. exact (clean_lock_unlocked s (KeysIter ["never"; "locked"]) Hs).
Defined.

Lemma last_data_saved_meaning_witness :
  let H := stub true None in
  let s := (new None false None None).2 in
  _save_on_edit s = false
  ∧ _last_data_saved (call (OSetItem "a" (VInt 1)) s).2 = false
  ∧ _last_data_saved (call (OSave false (Some "run")) s).2 = true.
Proof.
  intros H s. split; [reflexivity|]. split.
  - exact (proj1 (proj2 last_data_saved_meaning s (OSetItem "a" (VInt 1))) eq_refl).
  - exact (proj2 last_data_saved_meaning s (OSave false (Some "run"))).
Defined.


Lemma incremental_save_payload_witness :
  let H := stub true None in
  let s0 := after [OSetItem "a" (VInt 1)] (new None false None None).2 in
  let s1 := (save false (Some "run") s0).2 in
  let ops := [OSetItem "b" (VInt 2); OPop "a"; OSetItem "b" (VInt 4)] in
  let s2 := (for_each ops call s1).2 in
  (is_True (_read_only s0) = false
   ∧ for_each ops call s1 = (Ok tt, s2)
   ∧ ∃ payload,
       calls (save true (Some "run") s2).2
       = (calls s2 ++ [EvSaveDict "run.h5" payload])%list
       ∧ dom payload = ⋃ (touched <$> ops)
       ∧ ∀ k, k ∈ ⋃ (touched <$> ops) →
              payload !! k = Some (default VNone (_data s2 !! k)))
  ∧ (let a0 := (new (Some "run") true None None).2 in
     let a1 := (call (OSetItem "w" (VInt 0)) a0).2 in
     let a2 := (call (OSetItem "x" (VInt 7)) a1).2 in
     call (OSetItem "w" (VInt 0)) a0 = (Ok tt, a1)
     ∧ call (OSetItem "x" (VInt 7)) a1 = (Ok tt, a2)
     ∧ ∃ filename payload,
         calls a2 = (calls a1 ++ [EvSaveDict filename payload])%list
         ∧ dom payload = touched (OSetItem "x" (VInt 7))
         ∧ ∀ k, k ∈ touched (OSetItem "x" (VInt 7)) →
                payload !! k = Some (default VNone (_data a2 !! k))).
Proof.
  intros H s0 s1 ops s2. split.
  - assert (Hnt : is_True (_read_only s0) = false) by (vm_compute; reflexivity).
    assert (Hrun : for_each ops call s1 = (Ok tt, s2)) by (vm_compute; reflexivity).
    split; [exact Hnt|]. split; [exact Hrun|].
    apply (proj1 incremental_save_payload s0 s2 false (Some "run") ops
             (Some "run") "run" Hnt).
    + vm_compute. reflexivity.
    + repeat constructor.
    + exact Hrun.
    + vm_compute. reflexivity.
  - intros a0 a1 a2.
    assert (Hprior : call (OSetItem "w" (VInt 0)) a0 = (Ok tt, a1))
      by (vm_compute; reflexivity).
    assert (Hcall : call (OSetItem "x" (VInt 7)) a1 = (Ok tt, a2))
      by (vm_compute; reflexivity).
    split; [exact Hprior|]. split; [exact Hcall|].
    apply (proj2 incremental_save_payload a0 a1 a2
             (OSetItem "w" (VInt 0)) (OSetItem "x" (VInt 7))).
    + vm_compute. reflexivity.
    + reflexivity.
    + exact Hprior.
    + reflexivity.
    + exact Hcall.
Defined.

(** Scenario E of the specification: set [a], full save, set [b],
    incremental save: the second write carries [b] only. *)
Example scenario_E :
  let H := stub true None in
  calls (after [OSetItem "a" (VInt 1); OSave false (Some "run");
                OSetItem "b" (VInt 2); OSave true (Some "run")]
               (new None false None None).2)
  = [EvSaveDict "run.h5" {["a" := VInt 1]}; EvSaveDict "run.h5" {["b" := VInt 2]}].
Proof. vm_compute. reflexivity. Qed.

(** A key set and then deleted between two saves is handed over with
    [None]. *)
Example deleted_key_is_flushed_as_None :
  let H := stub true None in
  calls (after [OSetItem "a" (VInt 1); OSave false (Some "run");
                OSetItem "b" (VInt 2); OPop "a"; OPop "b"; OSave true (Some "run")]
               (new None false None None).2)
  = [EvSaveDict "run.h5" {["a" := VInt 1]};
     EvSaveDict "run.h5" {["a" := VNone; "b" := VNone]}].
Proof. vm_compute. reflexivity. Qed.

(** [container[("cfg", "gain", 1)]] against [container["cfg"]["gain"][1]]. *)
Example getitem_nested :
  let H := stub true None in
  let s := after [OSetItem "cfg" (VDict {["gain" := VList [VInt 3; VInt 4]]})]
                 (new None false None None).2 in
  (__getitem__ (ITuple [KStr "cfg"; KStr "gain"; KInt 1]) s).1 = Ok (VInt 4)
  ∧ chained_index s (KStr "cfg") [KStr "gain"; KInt 1] = Ok (VInt 4)
  ∧ (__getitem__ (ITuple [KStr "cfg"; KStr "gain"; KInt (-1)]) s).1 = Ok (VInt 4)
  ∧ (__getitem__ (ITuple [KStr "cfg"; KStr "rate"]) s).1 = Raise (KeyError (KStr "rate")).
Proof.
  intros H s. split; [vm_compute; reflexivity|]. split; [vm_compute; reflexivity|].
  split; vm_compute; reflexivity.
Qed.
(** * Further properties *)

(** ** File names *)

Ltac string_simpl :=
  repeat match goal with
    | |- context [ "" +:+ ?x ] => change ("" +:+ x) with x
    | |- context [ String ?a ?u +:+ ?x ] =>
        change (String a u +:+ x) with (String a (u +:+ x))
    | Hx : context [ "" +:+ ?x ] |- _ => change ("" +:+ x) with x in Hx
    | Hx : context [ String ?a ?u +:+ ?x ] |- _ =>
        change (String a u +:+ x) with (String a (u +:+ x)) in Hx
    end.

Lemma rstrip_all_in chars t : all_in chars t → rstrip chars t = "".
Proof.
  unfold all_in. induction t as [|c t IH]; simpl; intros Hall; [reflexivity|].
  inversion Hall as [|? ? Hc Ht]; subst. rewrite (IH Ht), Hc. reflexivity.
Qed.

Lemma rstrip_app chars s t : all_in chars t → rstrip chars (s +:+ t) = rstrip chars s.
Proof.
  intros Hall. induction s as [|a s IH]; string_simpl.
  - apply rstrip_all_in, Hall.
  - simpl. rewrite IH. reflexivity.
Qed.

Lemma rstrip_idemp chars s : rstrip chars (rstrip chars s) = rstrip chars s.
Proof.
  induction s as [|a s IH]; simpl; [reflexivity|].
  destruct (rstrip chars s) as [|b r] eqn:Hr.
  - destruct (in_chars a chars) eqn:Ha; simpl; [reflexivity|]. rewrite Ha. reflexivity.
  - simpl in *. rewrite IH. reflexivity.
Qed.

Lemma rstrip_split chars s : ∃ t, s = rstrip chars s +:+ t ∧ all_in chars t.
Proof.
  induction s as [|a s (t & Hs & Ht)]; simpl.
  - exists "". split; [reflexivity | constructor].
  - destruct (rstrip chars s) as [|b r] eqn:Hr.
    + destruct (in_chars a chars) eqn:Ha.
      * exists (String a t). string_simpl. split; [congruence|].
        constructor; assumption.
      * exists t. string_simpl. split; [congruence | exact Ht].
    + exists t. string_simpl. split; [congruence | exact Ht].
Qed.

Lemma rstrip_last chars s u c :
  rstrip chars s = u +:+ String c "" → in_chars c chars = false.
Proof.
  revert u. induction s as [|a s IH]; intros u; simpl.
  - destruct u; string_simpl; discriminate.
  - destruct (rstrip chars s) as [|b r] eqn:Hr.
    + destruct (in_chars a chars) eqn:Ha.
      * destruct u; string_simpl; discriminate.
      * destruct u as [|a' u]; string_simpl; intros Heq.
        -- congruence.
        -- destruct u; string_simpl; discriminate.
    + destruct u as [|a' u]; string_simpl; intros Heq.
      * discriminate.
      * apply (IH u). congruence.
Qed.

Lemma all_in_h5 : all_in ".h5" ".h5".
Proof. repeat constructor. Qed.

Lemma h5_name_rstrip fp : rstrip ".h5" (h5_name fp) = rstrip ".h5" fp.
Proof. unfold h5_name. rewrite rstrip_app by exact all_in_h5. apply rstrip_idemp. Qed.

Lemma h5_name_h5_name fp : h5_name (h5_name fp) = h5_name fp.
Proof. unfold h5_name at 1. rewrite h5_name_rstrip. reflexivity. Qed.

Section FileNames.
Context `{Collaborators}.

(** X1: the path [_check_if_filepath_was_set] returns is the chosen path
    (the explicit one unless it is missing or empty, else the bound one)
    without its longest suffix made of the characters [.], [h] and [5]: what
    is cut off consists of these characters only, and what is left does not
    end in one of them. *)
Theorem check_if_filepath_was_set_strips (filepath filepath2 : option string) (p : string) :
  _check_if_filepath_was_set filepath filepath2 = Ok p →
  ∃ chosen cut,
    py_or filepath filepath2 = Some chosen
    ∧ chosen = p +:+ cut
    ∧ all_in ".h5" cut
    ∧ ∀ u c, p = u +:+ String c "" → in_chars c ".h5" = false.
Proof.
  unfold _check_if_filepath_was_set.
  destruct (py_or filepath filepath2) as [chosen|]; [|discriminate].
  intros Heq. inversion Heq; subst p.
  destruct (rstrip_split ".h5" chosen) as (cut & Hsplit & Hcut).
  exists chosen, cut. split; [reflexivity|]. split; [exact Hsplit|].
  split; [exact Hcut|]. intros u c. apply rstrip_last.
Qed.

(** X2: a save without explicit path on a container bound to the file name
    the constructor built writes to exactly that file name, whatever
    [just_update] is; and the file name is stable under the constructor's
    normalisation. *)
Theorem save_goes_to_bound_file (s : AnalysisData) (fp : string) (just_update : bool) :
  _filepath s = Some (h5_name fp) →
  is_True (_read_only s) = false →
  h5_name (h5_name fp) = h5_name fp
  ∧ ∃ data, calls (save just_update None s).2
            = (calls s ++ [EvSaveDict (h5_name fp) data])%list.
Proof.
  intros Hfp Hnt. split; [apply h5_name_h5_name|].
  rewrite save_eq, Hnt, Hfp. cbn zeta.
  unfold _check_if_filepath_was_set. cbn [py_or].
  rewrite h5_name_rstrip. fold (h5_name fp).
  unfold call_save_dict. eexists.
  destruct (save_dict _ _ _); reflexivity.
Qed.

(** X3: an explicit, non-empty path given to [save] wins over the bound one
    and is normalised the same way; the bound path is not changed by the
    call.  An empty explicit path counts as none. *)
Theorem save_to_explicit_path (s : AnalysisData) (c : ascii) (q : string) (just_update : bool) :
  is_True (_read_only s) = false →
  (∃ data, calls (save just_update (Some (String c q)) s).2
           = (calls s ++ [EvSaveDict (h5_name (String c q)) data])%list)
  ∧ _filepath (save just_update (Some (String c q)) s).2 = _filepath s
  ∧ save just_update (Some "") s = save just_update None s.
Proof.
  intros Hnt. split; [|split].
  - rewrite save_eq, Hnt. cbn zeta.
    unfold _check_if_filepath_was_set. cbn [py_or]. fold (h5_name (String c q)).
    unfold call_save_dict. eexists. destruct (save_dict _ _ _); reflexivity.
  - rewrite save_eq, Hnt. cbn zeta.
    destruct (_check_if_filepath_was_set _ _); [|reflexivity].
    unfold call_save_dict. destruct (save_dict _ _ _); reflexivity.
  - rewrite !save_eq. reflexivity.
Qed.

End FileNames.

(** ** Construction *)

Section Opening.
Context `{Collaborators}.

Lemma new_ok fp soe ro ow (s : AnalysisData) :
  new fp soe ro ow = (Ok tt, s) →
  _read_only s = resolved_read_only fp soe ro ow
  ∧ _save_on_edit s = soe
  ∧ _filepath s = (if truthy (resolved_read_only fp soe ro ow) then None
                   else h5_name <$> fp)
  ∧ _last_update s = ∅
  ∧ _last_data_saved s = false
  ∧ _repr s = None
  ∧ _attrs s = dom (_data s)
  ∧ ∀ f d, EvSaveDict f d ∉ calls s.
Proof.
  assert (Hnil : ∀ f d, EvSaveDict f d ∉ ([] : list event)).
  { intros f d Hin. inversion Hin. }
  assert (Hrm : ∀ x f d, EvSaveDict f d ∉ [EvRemove x]).
  { intros x f d Hin. apply elem_of_cons in Hin as [Heq|Hin]; [discriminate|].
    inversion Hin. }
  unfold new, __init__, _load_from_h5, _update, os_remove, resolved_read_only, h5_name.
  unfold_monad.
  destruct fp as [fp|]; simpl.
  - repeat case_match; intros Heq; simplify_eq; simpl;
      rewrite ?dom_union_L, ?dom_empty_L;
      repeat (split; [first [reflexivity | set_solver]|]);
      first [apply Hnil | apply Hrm].
  - intros Heq. simplify_eq. simpl. rewrite dom_empty_L.
    destruct ro as [r|]; simpl.
    + destruct (truthy r) eqn:Hr.
      all: repeat (split; [reflexivity|]); apply Hnil.
    + rewrite andb_false_r. simpl. repeat (split; [reflexivity|]). apply Hnil.
Qed.

(** X4: what every successfully constructed container looks like:
    [_read_only] is the resolved mode, [save_on_edit] is stored as given,
    the normalised path is bound exactly when the resolved mode is falsy,
    nothing is dirty, nothing counts as saved, no summary is cached,
    [_attrs] is the key set of [_data], and the constructor has written
    nothing through [save_dict]. *)
Theorem new_postconditions fp soe ro ow (s : AnalysisData) :
  new fp soe ro ow = (Ok tt, s) →
  _read_only s = resolved_read_only fp soe ro ow
  ∧ _save_on_edit s = soe
  ∧ _filepath s = (if truthy (resolved_read_only fp soe ro ow) then None
                   else h5_name <$> fp)
  ∧ _last_update s = ∅
  ∧ _last_data_saved s = false
  ∧ _repr s = None
  ∧ _attrs s = dom (_data s)
  ∧ ∀ f d, EvSaveDict f d ∉ calls s.
Proof. apply new_ok. Qed.

End Opening.

Section OpeningCases.
Context `{Collaborators}.

(** The constructor behaves as if the resolved mode had been passed. *)
Lemma new_resolved fp soe ro ow :
  new fp soe ro ow = new fp soe (Some (resolved_read_only fp soe ro ow)) ow.
Proof. destruct ro; reflexivity. Qed.

Ltac open_init :=
  unfold new, __init__, _load_from_h5, _update, os_remove; unfold_monad;
  cbn -[rstrip String.append truthy bool_decide];
  rewrite ?h5_name_rstrip;
  repeat match goal with
    | |- context [rstrip ".h5" ?fp +:+ ".h5"] =>
        change (rstrip ".h5" fp +:+ ".h5") with (h5_name fp)
    end;
  rewrite ?h5_name_h5_name.

(** X5: opening for reading.  With a path, a truthy resolved mode and
    neither [overwrite] nor [save_on_edit], the constructor loads the file
    when it exists, keeping the mode and binding no path; it raises the
    error of [open_h5] when the file cannot be read, a [TypeError] when the
    file holds a dataset named [self], and a [ValueError] when the file does
    not exist. *)
Theorem new_read_only_open fp ro ow :
  truthy_opt ow = false →
  truthy (resolved_read_only (Some fp) false ro ow) = true →
  if path_exists (h5_name fp) then
    match open_h5 (h5_name fp) with
    | Ok d =>
        if bool_decide ("self" ∈ dom d) then
          (new (Some fp) false ro ow).1 = Raise (TypeError self_keyword_msg)
        else
          new (Some fp) false ro ow
          = (Ok tt,
             {| _repr := None; _last_data_saved := false; _filepath := None;
                _read_only := resolved_read_only (Some fp) false ro ow;
                _data := d; _attrs := dom d; _last_update := ∅;
                _save_on_edit := false; calls := [] |})
    | Raise e => (new (Some fp) false ro ow).1 = Raise e
    end
  else
    (new (Some fp) false ro ow).1
    = Raise (ValueError ("Cannot open file in read_only mode if file "
                         +:+ h5_name fp +:+ " does not exist")).
Proof.
  intros How Hr. rewrite new_resolved.
  set (r := resolved_read_only (Some fp) false ro ow) in *. clearbody r.
  destruct (path_exists (h5_name fp)) eqn:Hex.
  - destruct (open_h5 (h5_name fp)) as [d|e] eqn:Hopen.
    + destruct (bool_decide ("self" ∈ dom d)) eqn:Hself.
      * open_init. rewrite How, Hr, Hex. cbn -[rstrip String.append truthy bool_decide].
        rewrite ?andb_false_r. cbn -[rstrip String.append truthy bool_decide].
        rewrite ?h5_name_rstrip. fold (h5_name fp). rewrite Hopen, Hself.
        reflexivity.
      * open_init. rewrite How, Hr, Hex. cbn -[rstrip String.append truthy bool_decide].
        rewrite ?andb_false_r. cbn -[rstrip String.append truthy bool_decide].
        rewrite ?h5_name_rstrip. fold (h5_name fp). rewrite Hopen, Hself.
        cbn. rewrite (left_id_L ∅ (∪)), (right_id_L ∅ (∪)). reflexivity.
    + open_init. rewrite How, Hr, Hex. cbn -[rstrip String.append truthy bool_decide].
      rewrite ?andb_false_r. cbn -[rstrip String.append truthy bool_decide].
      rewrite ?h5_name_rstrip. fold (h5_name fp). rewrite Hopen. reflexivity.
  - open_init. rewrite How, Hr, Hex. reflexivity.
Qed.

(** X6: opening an existing file for writing (falsy resolved mode).  With
    [overwrite=None] the constructor raises.  With [overwrite=True] it calls
    [os.remove]: when that returns, nothing is loaded and the path is bound;
    when it raises, so does the constructor.  With [overwrite=False] it
    loads the file and binds the path, and raises when the file cannot be
    read or holds a dataset named [self]. *)
Theorem new_writable_open_existing fp soe ro ow :
  truthy (resolved_read_only (Some fp) soe ro ow) = false →
  path_exists (h5_name fp) = true →
  match ow with
  | None => ∃ msg, (new (Some fp) soe ro ow).1 = Raise (ValueError msg)
  | Some true =>
      if os_remove_ok (h5_name fp) then
        new (Some fp) soe ro ow
        = (Ok tt,
           {| _repr := None; _last_data_saved := false;
              _filepath := Some (h5_name fp);
              _read_only := resolved_read_only (Some fp) soe ro ow;
              _data := ∅; _attrs := ∅; _last_update := ∅;
              _save_on_edit := soe; calls := [EvRemove (h5_name fp)] |})
      else (new (Some fp) soe ro ow).1 = Raise OSError
  | Some false =>
      match open_h5 (h5_name fp) with
      | Ok d =>
          if bool_decide ("self" ∈ dom d) then
            (new (Some fp) soe ro ow).1 = Raise (TypeError self_keyword_msg)
          else
            new (Some fp) soe ro ow
            = (Ok tt,
               {| _repr := None; _last_data_saved := false;
                  _filepath := Some (h5_name fp);
                  _read_only := resolved_read_only (Some fp) soe ro ow;
                  _data := d; _attrs := dom d; _last_update := ∅;
                  _save_on_edit := soe; calls := [] |})
      | Raise e => (new (Some fp) soe ro ow).1 = Raise e
      end
  end.
Proof.
  intros Hr Hex. rewrite new_resolved.
  set (r := resolved_read_only (Some fp) soe ro ow) in *. clearbody r.
  destruct ow as [[|]|].
  - destruct (os_remove_ok (h5_name fp)) eqn:Hrm.
    + open_init. rewrite Hr, Hex. cbn -[rstrip String.append truthy bool_decide].
      rewrite ?andb_false_r. cbn -[rstrip String.append truthy bool_decide].
      rewrite Hrm. reflexivity.
    + open_init. rewrite Hr, Hex. cbn -[rstrip String.append truthy bool_decide].
      rewrite ?andb_false_r. cbn -[rstrip String.append truthy bool_decide].
      rewrite Hrm. reflexivity.
  - destruct (open_h5 (h5_name fp)) as [d|e] eqn:Hopen.
    + destruct (bool_decide ("self" ∈ dom d)) eqn:Hself.
      * open_init. rewrite Hr, Hex. cbn -[rstrip String.append truthy bool_decide].
        rewrite ?andb_false_r. cbn -[rstrip String.append truthy bool_decide].
        rewrite ?h5_name_rstrip. fold (h5_name fp). rewrite Hopen, Hself.
        reflexivity.
      * open_init. rewrite Hr, Hex. cbn -[rstrip String.append truthy bool_decide].
        rewrite ?andb_false_r. cbn -[rstrip String.append truthy bool_decide].
        rewrite ?h5_name_rstrip. fold (h5_name fp). rewrite Hopen, Hself.
        cbn. rewrite (left_id_L ∅ (∪)), (right_id_L ∅ (∪)). reflexivity.
    + open_init. rewrite Hr, Hex. cbn -[rstrip String.append truthy bool_decide].
      rewrite ?andb_false_r. cbn -[rstrip String.append truthy bool_decide].
      rewrite ?h5_name_rstrip. fold (h5_name fp). rewrite Hopen. reflexivity.
  - open_init. rewrite Hr, Hex. cbn -[rstrip String.append truthy].
    rewrite ?andb_false_r. cbn -[rstrip String.append truthy].
    eexists. reflexivity.
Qed.

(** X7: opening a path at which no file exists, for writing (falsy resolved
    mode): the container starts empty, bound to the normalised path, without
    touching the file system, whatever [overwrite] is. *)
Theorem new_writable_open_missing fp soe ro ow :
  truthy (resolved_read_only (Some fp) soe ro ow) = false →
  path_exists (h5_name fp) = false →
  new (Some fp) soe ro ow
  = (Ok tt,
     {| _repr := None; _last_data_saved := false;
        _filepath := Some (h5_name fp);
        _read_only := resolved_read_only (Some fp) soe ro ow;
        _data := ∅; _attrs := ∅; _last_update := ∅;
        _save_on_edit := soe; calls := [] |}).
Proof.
  intros Hr Hex. rewrite new_resolved.
  set (r := resolved_read_only (Some fp) soe ro ow) in *. clearbody r.
  open_init. rewrite Hr, Hex. cbn -[rstrip String.append truthy bool_decide].
  rewrite ?andb_false_r. reflexivity.
Qed.

End OpeningCases.

(** ** Locks *)

Section Locks.
Context `{Collaborators}.

Lemma set__read_only_same (s : AnalysisData) : set__read_only (_read_only s) s = s.
Proof. destruct s; reflexivity. Qed.

Lemma for_each_read_only_add (l : list string) (s : AnalysisData) (locked : gset string) :
  _read_only s = ROSet locked →
  for_each l read_only_add s
  = (Ok tt, set__read_only (ROSet (locked ∪ list_to_set l)) s).
Proof.
  revert s locked. induction l as [|x l IH]; intros s locked Hro; simpl.
  - rewrite (right_id_L ∅ (∪)), <- Hro, set__read_only_same. reflexivity.
  - unfold_monad. unfold read_only_add at 1. rewrite Hro.
    rewrite (IH _ (locked ∪ {[x]})) by reflexivity.
    unfold set__read_only. simpl. rewrite (assoc_L (∪)). reflexivity.
Qed.

Lemma list_to_set_keys (s : AnalysisData) : list_to_set (keys s) = dom (_data s).
Proof.
  unfold keys. apply set_eq. intros k.
  rewrite elem_of_list_to_set, elem_of_dom, list_elem_of_fmap. split.
  - intros ([k' v] & -> & Hkv). apply elem_of_map_to_list in Hkv. eauto.
  - intros [v Hv]. exists (k, v). split; [reflexivity|].
    apply elem_of_map_to_list. exact Hv.
Qed.

Lemma lock_data_eq (keys_ : keys_arg) (s : AnalysisData) :
  is_True (_read_only s) = false →
  lock_data keys_ s
  = (Ok tt, set__read_only (ROSet (locked_keys s ∪ named_keys keys_ s)) s).
Proof.
  intros Hnt. unfold lock_data. unfold_monad. rewrite Hnt.
  assert (Hnamed : list_to_set match keys_ with
                               | KeysNone => keys s
                               | KeysStr k => [k]
                               | KeysIter l => l
                               end = named_keys keys_ s).
  { destruct keys_; simpl; [apply list_to_set_keys | set_solver | reflexivity]. }
  unfold locked_keys. destruct (_read_only s) as [b|locked] eqn:Hro; simpl.
  - rewrite (for_each_read_only_add _ _ ∅) by reflexivity.
    rewrite Hnamed. reflexivity.
  - rewrite (for_each_read_only_add _ _ locked) by exact Hro.
    rewrite Hnamed. reflexivity.
Qed.

(** X8: on a container that is not fully read-only, [lock_data] returns and
    afterwards protects exactly the keys that were locked before together
    with the keys it names (all current keys of [_data] for [None]); nothing
    else of the container changes.  A key that is neither named nor locked
    before stays unprotected: after [lock_data()] a key that is not yet in
    the container can still be assigned. *)
Theorem lock_data_protects (keys_ : keys_arg) (s : AnalysisData) :
  is_True (_read_only s) = false →
  lock_data keys_ s
  = (Ok tt, set__read_only (ROSet (locked_keys s ∪ named_keys keys_ s)) s)
  ∧ ∀ k, __check_read_only_true k (lock_data keys_ s).2
         = bool_decide (k ∈ locked_keys s ∪ named_keys keys_ s).
Proof.
  intros Hnt. rewrite (lock_data_eq keys_ s Hnt). split; [reflexivity|].
  intros k. apply check_read_only_true_set. reflexivity.
Qed.

(** X9: locking and then clearing all locks brings an unlocked container
    back to exactly the state it was in. *)
Theorem lock_then_clean_lock (keys_ : keys_arg) (s : AnalysisData) :
  _read_only s = ROBool false →
  (lock_data keys_;; clean_lock KeysNone) s = (Ok tt, s).
Proof.
  intros Hro. unfold_monad.
  rewrite lock_data_eq by (rewrite Hro; reflexivity).
  unfold clean_lock. unfold_monad. simpl.
  rewrite <- Hro at 1. unfold set__read_only. simpl.
  destruct s; reflexivity.
Qed.

Lemma for_each_read_only_remove (l : list string) (s : AnalysisData) (locked : gset string) :
  _read_only s = ROSet locked →
  NoDup l →
  (∀ k, k ∈ l → k ∈ locked) →
  for_each l read_only_remove s
  = (Ok tt, set__read_only (ROSet (locked ∖ list_to_set l)) s).
Proof.
  revert s locked. induction l as [|x l IH]; intros s locked Hro Hnd Hin; simpl.
  - rewrite difference_empty_L, <- Hro, set__read_only_same. reflexivity.
  - inversion Hnd as [|? ? Hx Hl]; subst. unfold_monad.
    unfold read_only_remove at 1. rewrite Hro.
    rewrite bool_decide_eq_true_2 by (apply Hin; left).
    rewrite (IH _ (locked ∖ {[x]})); [|reflexivity|exact Hl|].
    + unfold set__read_only. simpl. rewrite difference_difference_l_L. reflexivity.
    + intros k Hk. apply elem_of_difference. split; [apply Hin; right; exact Hk|].
      intros Hkx. apply elem_of_singleton in Hkx. subst. contradiction.
Qed.

(** X10: on a partially locked container, [clean_lock] with distinct keys
    that are all locked returns and removes exactly these keys from the
    locked set; the lock stays a set (possibly empty) and nothing else
    changes. *)
Theorem clean_lock_removes (l : list string) (s : AnalysisData) (locked : gset string) :
  _read_only s = ROSet locked →
  NoDup l →
  (∀ k, k ∈ l → k ∈ locked) →
  clean_lock (KeysIter l) s
  = (Ok tt, set__read_only (ROSet (locked ∖ list_to_set l)) s).
Proof.
  intros Hro Hnd Hin. unfold clean_lock. unfold_monad. rewrite Hro. simpl.
  apply for_each_read_only_remove; assumption.
Qed.

(** X11: [clean_lock] is not atomic.  When the keys [before] are distinct
    and locked and the next key [k] is not locked (or is one of [before]),
    the call raises [KeyError] for [k] after it has already unlocked
    [before]. *)
Theorem clean_lock_unknown_key (before after_ : list string) (k : string)
    (s : AnalysisData) (locked : gset string) :
  _read_only s = ROSet locked →
  NoDup before →
  (∀ k', k' ∈ before → k' ∈ locked) →
  k ∉ locked ∖ list_to_set before →
  clean_lock (KeysIter (before ++ k :: after_)) s
  = (Raise (KeyError (KStr k)),
     set__read_only (ROSet (locked ∖ list_to_set before)) s).
Proof.
  intros Hro Hnd Hin Hk. unfold clean_lock. unfold_monad. rewrite Hro. simpl.
  assert (Happ : ∀ (l1 l2 : list string) (s0 : AnalysisData),
            for_each (l1 ++ l2) read_only_remove s0
            = match for_each l1 read_only_remove s0 with
              | (Ok _, s1) => for_each l2 read_only_remove s1
              | (Raise e, s1) => (Raise e, s1)
              end).
  { induction l1 as [|x l1 IH]; intros l2 s0; simpl; [reflexivity|].
    unfold_monad. destruct (read_only_remove x s0) as [[[]|e] s1]; [|reflexivity].
    apply IH. }
  rewrite Happ, (for_each_read_only_remove before s locked Hro Hnd Hin).
  simpl. unfold_monad. unfold read_only_remove at 1. simpl.
  rewrite bool_decide_eq_false_2 by exact Hk. reflexivity.
Qed.

End Locks.

(** ** What calls leave alone *)

Section Stability.
Context `{Collaborators}.

Lemma same_content_refl (s : AnalysisData) : same_content s s.
Proof. repeat split. Qed.

Lemma same_content_trans (s1 s2 s3 : AnalysisData) :
  same_content s1 s2 → same_content s2 s3 → same_content s1 s3.
Proof.
  unfold same_content. intros (? & ? & ? & ? & ? & ?) (? & ? & ? & ? & ? & ?).
  repeat split; congruence.
Qed.

Lemma same_content_flag b (s : AnalysisData) : same_content s (set__last_data_saved b s).
Proof. repeat split. Qed.

Lemma call_frozen (o : op) (s : AnalysisData) :
  _read_only s = ROBool true →
  same_content s (call o s).2
  ∧ ((call o s).1 = Ok tt →
     match o with
     | OGet _ _ | OGetItem _ | OUpdate [] => True
     | _ => False
     end).
Proof.
  intros Hro.
  assert (Hcheck : ∀ k b, __check_read_only_true k (set__last_data_saved b s) = true).
  { intros k b. apply check_read_only_true_is_True. simpl. rewrite Hro. reflexivity. }
  destruct o as [ks|ks|k v|k|k|kwds|ju fp|k d|i]; simpl.
  - unfold lock_data. unfold_monad. rewrite Hro. simpl.
    split; [apply same_content_refl | discriminate].
  - unfold clean_lock. unfold_monad. rewrite Hro. simpl.
    split; [apply same_content_refl | discriminate].
  - unfold __setitem__.
    rewrite (editing_raise _ s (set__last_data_saved false s) (read_only_error k)).
    + split; [apply same_content_flag | discriminate].
    + unfold setitem_body. unfold_monad. rewrite Hcheck. reflexivity.
  - unfold pop.
    rewrite (editing_raise _ s (set__last_data_saved false s) (read_only_error k)).
    + split; [apply same_content_flag | discriminate].
    + unfold pop_body. unfold_monad. rewrite Hcheck. reflexivity.
  - unfold __delitem__, pop.
    rewrite (editing_raise _ s (set__last_data_saved false s) (read_only_error k)).
    + split; [apply same_content_flag | discriminate].
    + unfold pop_body. unfold_monad. rewrite Hcheck. reflexivity.
  - destruct kwds as [|[k v] kwds].
    + split; [|trivial]. unfold update. rewrite editing_eq.
      unfold update_body. unfold_monad. cbn.
      destruct (_save_on_edit s); [|repeat split].
      rewrite save_eq. cbn. rewrite Hro. cbn. repeat split.
    + unfold update.
      rewrite (editing_raise _ s (set__last_data_saved false s) (read_only_error k)).
      * split; [apply same_content_flag | discriminate].
      * unfold update_body. cbn [update_loop]. unfold_monad. rewrite Hcheck.
        reflexivity.
  - rewrite save_eq, Hro. simpl. split; [apply same_content_refl | discriminate].
  - split; [apply same_content_refl | trivial].
  - split; [|trivial]. unfold void, __getitem__. unfold_monad.
    destruct i; simpl; case_match; apply same_content_refl.
Qed.

(** X12: a fully read-only container is frozen.  Along every sequence of
    public calls, failing or not, [_data], [_attrs], [_last_update], the bound
    path and the lock stay as they were and [save_dict] is never called; and
    the only calls that return at all are reads and an [update] without
    keywords. *)
Theorem read_only_container_is_frozen (s : AnalysisData) (ops : list op) :
  _read_only s = ROBool true →
  same_content s (after ops s)
  ∧ ∀ o, (call o (after ops s)).1 = Ok tt →
         match o with
         | OGet _ _ | OGetItem _ | OUpdate [] => True
         | _ => False
         end.
Proof.
  intros Hro.
  assert (Hrun : same_content s (after ops s) ∧ _read_only (after ops s) = ROBool true).
  { revert s Hro. induction ops as [|o ops IH]; intros s Hro; simpl.
    - split; [apply same_content_refl | exact Hro].
    - destruct (call_frozen o s Hro) as [Hstep _].
      assert (Hro1 : _read_only (call o s).2 = ROBool true).
      { destruct Hstep as (_ & _ & _ & _ & _ & Hr). congruence. }
      destruct (IH _ Hro1) as [Hrest Hro2].
      split; [eapply same_content_trans; eassumption | exact Hro2]. }
  destruct Hrun as [Hsame Hro']. split; [exact Hsame|].
  intros o. apply (call_frozen o _ Hro').
Qed.

(** What no public call assigns, whether it returns or raises. *)
Lemma call_frame {X} (f : AnalysisData → X) (o : op) :
  (∀ v s, f (set__attrs v s) = f s) →
  (∀ v s, f (set__last_update v s) = f s) →
  (∀ v s, f (set__data v s) = f s) →
  (∀ v s, f (set__read_only v s) = f s) →
  (∀ v s, f (set__last_data_saved v s) = f s) →
  (∀ v s, f (set__repr v s) = f s) →
  (∀ e s, f (log_call e s) = f s) →
  preserves f (call o).
Proof.
  intros Ha Hu Hd Hr Hl Hp Hc.
  assert (Hsave : ∀ ju fp, preserves f (save ju fp)).
  { intros ju fp. unfold save.
    frame_with ltac:(try (apply call_save_dict_frame; exact Hc)).
    apply Hu. }
  assert (Hedit : ∀ m : M unit, preserves f m → preserves f (editing m)).
  { intros m Hm. unfold editing, _clean_precalculated_results.
    frame_with ltac:(try apply Hsave). }
  destruct (is_save o) eqn:Hns.
  - destruct o; try discriminate. apply Hsave.
  - rewrite call_eq. pose proof (body_of_frame f o Ha Hu Hd Hr Hns) as Hbody.
    destruct (is_mutation o); [apply Hedit|]; exact Hbody.
Qed.

Lemma call_not_fully_locked (o : op) (s : AnalysisData) :
  is_True (_read_only s) = false → is_True (_read_only (call o s).2) = false.
Proof.
  intros Hnt. destruct (is_save o) eqn:Hns.
  - destruct o; try discriminate. simpl. rewrite save_read_only. exact Hnt.
  - destruct (is_mutation o) eqn:Hmut.
    + destruct o; try discriminate; simpl.
      * rewrite setitem_read_only. exact Hnt.
      * rewrite pop_read_only. exact Hnt.
      * unfold __delitem__. rewrite pop_read_only. exact Hnt.
      * rewrite update_read_only. exact Hnt.
    + rewrite call_eq, Hmut. apply body_of_not_fully_locked; assumption.
Qed.

End Stability.

Section Reachable.
Context `{Collaborators}.

(** X13: on a container the constructor returned, no sequence of public
    calls, failing or not, changes the bound path or [save_on_edit]; and a
    container that has a bound path is never fully read-only, so a [save]
    on it is never rejected by the read-only check. *)
Theorem bound_path_is_stable fp soe ro ow (s0 : AnalysisData) (ops : list op) :
  new fp soe ro ow = (Ok tt, s0) →
  _filepath (after ops s0) = _filepath s0
  ∧ _save_on_edit (after ops s0) = soe
  ∧ (_filepath s0 ≠ None → is_True (_read_only (after ops s0)) = false).
Proof.
  intros Hnew. apply new_ok in Hnew as (Hro & Hsoe & Hfp & _).
  assert (Hbound : _filepath s0 ≠ None → is_True (_read_only s0) = false).
  { rewrite Hfp, Hro. destruct (resolved_read_only fp soe ro ow) as [[|]|l];
      simpl; try case_bool_decide; simpl; congruence. }
  clear Hro Hfp. rewrite <- Hsoe. clear Hsoe.
  revert s0 Hbound. induction ops as [|o ops IH]; intros s0 Hbound; simpl.
  - auto.
  - pose proof (call_frame _filepath o (λ _ _, eq_refl) (λ _ _, eq_refl)
                  (λ _ _, eq_refl) (λ _ _, eq_refl) (λ _ _, eq_refl)
                  (λ _ _, eq_refl) (λ _ _, eq_refl) s0) as Hfp.
    pose proof (call_frame _save_on_edit o (λ _ _, eq_refl) (λ _ _, eq_refl)
                  (λ _ _, eq_refl) (λ _ _, eq_refl) (λ _ _, eq_refl)
                  (λ _ _, eq_refl) (λ _ _, eq_refl) s0) as Hsoe.
    destruct (IH (call o s0).2) as (Hf & Hs & Hb).
    { rewrite Hfp. intros Hsome. apply call_not_fully_locked, Hbound, Hsome. }
    rewrite Hf, Hs, Hfp, Hsoe. split; [reflexivity|]. split; [reflexivity|].
    intros Hsome. apply Hb. rewrite Hfp. exact Hsome.
Qed.

End Reachable.

(** ** Storing and reading *)

Section Store.
Context `{Collaborators}.

Lemma editing_ok_inv {A} (func : M A) (s s' : AnalysisData) (res : A) :
  editing func s = (Ok res, s') →
  ∃ s1, func (set__last_data_saved false s) = (Ok res, s1)
        ∧ _data s' = _data s1 ∧ _attrs s' = _attrs s1.
Proof.
  rewrite editing_eq.
  destruct (func (set__last_data_saved false s)) as [[r|e] s1]; [|discriminate].
  cbn zeta. destruct (_save_on_edit (set__repr None s1)).
  - destruct (save_known_keys true None (set__repr None s1)) as [Ha Hd].
    destruct (save true None (set__repr None s1)) as [[[]|e] s3]; [|discriminate].
    intros Heq. inversion Heq; subst. exists s1. simpl in *. auto.
  - intros Heq. inversion Heq; subst. exists s1. auto.
Qed.

Lemma setitem_ok k v (s s' : AnalysisData) :
  __setitem__ k v s = (Ok tt, s') →
  (∀ h, transform_to_possible_formats v ≠ VH5 h) →
  _data s' = <[k := transform_to_possible_formats v]> (_data s)
  ∧ _attrs s' = _attrs s ∪ {[k]}.
Proof.
  intros Hset Hno. apply editing_ok_inv in Hset as (s1 & Hbody & Hd & Ha).
  rewrite Hd, Ha. clear Hd Ha s'. revert Hbody.
  unfold setitem_body, __add_key. unfold_monad. simpl.
  destruct (__check_read_only_true k _); simpl; [discriminate|].
  destruct (transform_to_possible_formats v) as [| | | | |h] eqn:Hv; simpl;
    try (intros Heq; inversion Heq; subst; simpl; split; reflexivity).
  destruct (Hno h). reflexivity.
Qed.

Lemma pop_ok k (s s' : AnalysisData) :
  pop k s = (Ok tt, s') →
  _data s' = delete k (_data s) ∧ _attrs s' = _attrs s ∖ {[k]}
  ∧ k ∈ _attrs s ∧ k ∈ dom (_data s).
Proof.
  intros Hpop. apply editing_ok_inv in Hpop as (s1 & Hbody & Hd & Ha).
  rewrite Hd, Ha. clear Hd Ha s'. revert Hbody.
  unfold pop_body, __del_key. unfold_monad. simpl.
  destruct (__check_read_only_true k _); simpl; [discriminate|].
  case_bool_decide as Hin; simpl; [|discriminate].
  case_bool_decide as Hdom; simpl; [|discriminate].
  intros Heq. inversion Heq; subst; simpl. auto.
Qed.

(** X14: an item assignment that returned, of a value that is not an array
    handle, can be read back: [get], indexing and the membership test see
    the normalised value under the key, the key is among [_attrs], and every
    other key reads as before. *)
Theorem setitem_then_get k v d (s s' : AnalysisData) :
  __setitem__ k v s = (Ok tt, s') →
  (∀ h, transform_to_possible_formats v ≠ VH5 h) →
  get k d s' = (Ok (transform_to_possible_formats v), s')
  ∧ __getitem__ (IKey (KStr k)) s' = (Ok (transform_to_possible_formats v), s')
  ∧ __contains__ k s' = (Ok true, s')
  ∧ k ∈ _attrs s'
  ∧ ∀ k', k' ≠ k → (get k' d s').1 = (get k' d s).1.
Proof.
  intros Hset Hno. destruct (setitem_ok k v s s' Hset Hno) as [Hd Ha].
  unfold get, __getitem__, __contains__. unfold_monad. simpl. rewrite Hd.
  rewrite lookup_insert_eq. simpl.
  split; [reflexivity|]. split; [reflexivity|]. split.
  { rewrite bool_decide_eq_true_2; [reflexivity|]. rewrite dom_insert_L. set_solver. }
  split; [rewrite Ha; set_solver|].
  intros k' Hne. rewrite lookup_insert_ne by congruence. reflexivity.
Qed.

(** X15: after a [pop] that returned the key is gone: [get] gives the
    default, indexing raises [KeyError], the membership test is false and the
    key is no longer among [_attrs]; it was there before, and every other key
    reads as before. *)
Theorem pop_then_get k d (s s' : AnalysisData) :
  pop k s = (Ok tt, s') →
  get k d s' = (Ok d, s')
  ∧ __getitem__ (IKey (KStr k)) s' = (Raise (KeyError (KStr k)), s')
  ∧ __contains__ k s' = (Ok false, s')
  ∧ (k ∉ _attrs s')
  ∧ is_Some (_data s !! k)
  ∧ ∀ k', k' ≠ k → (get k' d s').1 = (get k' d s).1.
Proof.
  intros Hpop. destruct (pop_ok k s s' Hpop) as (Hd & Ha & _ & Hdom).
  unfold get, __getitem__, __contains__. unfold_monad. simpl. rewrite Hd.
  rewrite lookup_delete_eq. simpl.
  split; [reflexivity|]. split; [reflexivity|]. split.
  { rewrite bool_decide_eq_false_2; [reflexivity|]. rewrite dom_delete_L. set_solver. }
  split; [rewrite Ha; set_solver|].
  split; [apply elem_of_dom, Hdom|].
  intros k' Hne. rewrite lookup_delete_ne by congruence. reflexivity.
Qed.

(** X16: [pop] of a key that is not among [_attrs] raises ([KeyError], or
    the read-only [TypeError] when the lock protects the key) and changes
    nothing but [_last_data_saved], which it clears. *)
Theorem pop_absent_key k (s : AnalysisData) :
  k ∉ _attrs s →
  pop k s
  = (Raise (if __check_read_only_true k s then read_only_error k
            else KeyError (KStr k)),
     set__last_data_saved false s).
Proof.
  intros Hk. unfold pop. apply editing_raise.
  unfold pop_body, __del_key. unfold_monad. simpl.
  change (__check_read_only_true k (set__last_data_saved false s))
    with (__check_read_only_true k s).
  destruct (__check_read_only_true k s); [reflexivity|].
  simpl. rewrite bool_decide_eq_false_2 by exact Hk. reflexivity.
Qed.

Lemma update_loop_values kwds (s s' : AnalysisData) kwds' :
  update_loop kwds s = (Ok kwds', s') →
  kwds' = (λ kv, (kv.1, transform_to_possible_formats kv.2)) <$> kwds.
Proof.
  revert s kwds' s'. induction kwds as [|[key v] kwds IH]; intros s kwds' s'; simpl.
  - unfold_monad. intros Heq. inversion Heq; subst. reflexivity.
  - unfold __add_key. unfold_monad. simpl.
    destruct (__check_read_only_true key s); simpl; [discriminate|].
    destruct (update_loop kwds _) as [[rest|e] s1] eqn:Hloop; [|discriminate].
    intros Heq. inversion Heq; subst. apply IH in Hloop. subst. reflexivity.
Qed.

Lemma dict_update_notin (d : gmap string value) kwds k :
  k ∉ kwds.*1 → dict_update d kwds !! k = d !! k.
Proof.
  unfold dict_update. revert d. induction kwds as [|[k0 v0] kwds IH]; intros d Hk; simpl.
  - reflexivity.
  - rewrite fmap_cons in Hk. apply not_elem_of_cons in Hk as [Hne Hk].
    rewrite IH by exact Hk. simpl in Hne. apply lookup_insert_ne. congruence.
Qed.

Lemma dict_update_in (d : gmap string value) kwds k v :
  NoDup kwds.*1 → (k, v) ∈ kwds → dict_update d kwds !! k = Some v.
Proof.
  revert d. induction kwds as [|[k0 v0] kwds IH]; intros d Hnd Hin.
  - inversion Hin.
  - rewrite fmap_cons in Hnd. inversion Hnd as [|? ? Hk0 Hnd']; subst.
    apply elem_of_cons in Hin as [Heq|Hin].
    + inversion Heq; subst.
      change (dict_update d ((k0, v0) :: kwds))
        with (dict_update (<[k0 := v0]> d) kwds).
      rewrite dict_update_notin by exact Hk0. apply lookup_insert_eq.
    + change (dict_update d ((k0, v0) :: kwds))
        with (dict_update (<[k0 := v0]> d) kwds).
      apply IH; assumption.
Qed.

Lemma update_ok kwds (s s' : AnalysisData) :
  update kwds s = (Ok tt, s') →
  _data s'
  = dict_update (_data s) ((λ kv, (kv.1, transform_to_possible_formats kv.2)) <$> kwds)
  ∧ _attrs s' = _attrs s ∪ list_to_set kwds.*1.
Proof.
  intros Hupd. apply editing_ok_inv in Hupd as (s1 & Hbody & Hd & Ha).
  rewrite Hd, Ha. clear Hd Ha s'. revert Hbody.
  unfold update_body. unfold_monad.
  destruct (update_loop kwds _) as [[kwds'|e] s0] eqn:Hloop; [|discriminate].
  intros Heq. inversion Heq; subst. simpl.
  pose proof (update_loop_frame _data (λ _ _, eq_refl) (λ _ _, eq_refl) kwds
                (set__last_data_saved false s)) as Hd.
  rewrite Hloop in Hd. simpl in Hd.
  pose proof (update_loop_values _ _ _ _ Hloop) as Hv.
  apply update_loop_ok in Hloop as (_ & Ha & _).
  rewrite Hd, Hv, Ha. split; reflexivity.
Qed.

(** X17: after an [update] that returned, with distinct keywords, every
    keyword reads back as its normalised value, every other key reads as
    before, and the keywords have joined [_attrs]. *)
Theorem update_then_get kwds d (s s' : AnalysisData) :
  update kwds s = (Ok tt, s') →
  NoDup kwds.*1 →
  (∀ k v, (k, v) ∈ kwds → get k d s' = (Ok (transform_to_possible_formats v), s'))
  ∧ (∀ k, k ∉ kwds.*1 → (get k d s').1 = (get k d s).1)
  ∧ _attrs s' = _attrs s ∪ list_to_set kwds.*1.
Proof.
  intros Hupd Hnd. destruct (update_ok kwds s s' Hupd) as [Hd Ha].
  split; [|split; [|exact Ha]].
  - intros k v Hin. unfold get. unfold_monad. simpl. rewrite Hd.
    rewrite (dict_update_in _ _ k (transform_to_possible_formats v)).
    + reflexivity.
    + rewrite <- list_fmap_compose. exact Hnd.
    + apply list_elem_of_fmap. exists (k, v). split; [reflexivity | exact Hin].
  - intros k Hk. unfold get. unfold_monad. simpl. rewrite Hd.
    rewrite dict_update_notin; [reflexivity|].
    rewrite <- list_fmap_compose. exact Hk.
Qed.


End Store.

(** ** The cached summary *)

Section Summary.
Context `{Collaborators}.

Lemma body_of_raise_data (o : op) (s s' : AnalysisData) (e : exn) :
  is_mutation o = true →
  body_of o s = (Raise e, s') →
  _data s' = _data s.
Proof.
  intros Hmut. destruct o; try discriminate; simpl.
  - unfold setitem_body, __add_key. unfold_monad. simpl.
    repeat case_match; simpl; intros; simplify_eq; reflexivity.
  - unfold pop_body, __del_key. unfold_monad. simpl.
    repeat case_match; simpl; intros; simplify_eq; reflexivity.
  - unfold pop_body, __del_key. unfold_monad. simpl.
    repeat case_match; simpl; intros; simplify_eq; reflexivity.
  - unfold update_body. unfold_monad.
    pose proof (update_loop_frame _data (λ _ _, eq_refl) (λ _ _, eq_refl) kwds s) as Hd.
    destruct (update_loop kwds s) as [[kwds'|e'] s1]; [discriminate|].
    intros Heq. inversion Heq; subst. exact Hd.
Qed.

Lemma save_repr ju fp : preserves _repr (save ju fp).
Proof.
  unfold save. frame_with ltac:(try (apply call_save_dict_frame; reflexivity)).
Qed.

Lemma call_cache_fresh (o : op) (s : AnalysisData) :
  cache_fresh s → cache_fresh (call o s).2.
Proof.
  intros Hfresh.
  assert (Hsame : _repr (call o s).2 = _repr s → _data (call o s).2 = _data s →
                  cache_fresh (call o s).2).
  { intros Hr Hd. unfold cache_fresh. rewrite Hr, Hd. exact Hfresh. }
  destruct (is_save o) eqn:Hns.
  - destruct o; try discriminate. apply Hsame.
    + apply save_repr.
    + apply save_known_keys.
  - destruct (is_mutation o) eqn:Hmut.
    + clear Hsame. rewrite call_eq, Hmut, editing_eq.
      pose proof (body_of_frame _repr o (λ _ _, eq_refl) (λ _ _, eq_refl)
                    (λ _ _, eq_refl) (λ _ _, eq_refl) Hns
                    (set__last_data_saved false s)) as Hr.
      destruct (body_of o (set__last_data_saved false s)) as [[[]|e] s1] eqn:Hbody.
      * cbn zeta. destruct (_save_on_edit _); [|left; reflexivity].
        pose proof (save_repr true None (set__repr None s1)) as Hr3.
        destruct (save true None (set__repr None s1)) as [[[]|e] s3];
          left; exact Hr3.
      * apply body_of_raise_data in Hbody; [|exact Hmut].
        unfold cache_fresh. simpl in *. rewrite Hr, Hbody. exact Hfresh.
    + destruct o; try discriminate; apply Hsame.
      * assert (Hp : preserves _repr (lock_data keys_))
          by (unfold lock_data, read_only_add; frame). apply Hp.
      * assert (Hp : preserves _data (lock_data keys_))
          by (unfold lock_data, read_only_add; frame). apply Hp.
      * assert (Hp : preserves _repr (clean_lock remove_keys))
          by (unfold clean_lock, read_only_remove; frame). apply Hp.
      * assert (Hp : preserves _data (clean_lock remove_keys))
          by (unfold clean_lock, read_only_remove; frame). apply Hp.
      * reflexivity.
      * reflexivity.
      * assert (Hp : preserves _repr (void (__getitem__ i)))
          by (unfold void, __getitem__; frame). apply Hp.
      * assert (Hp : preserves _data (void (__getitem__ i)))
          by (unfold void, __getitem__; frame). apply Hp.
Qed.

Lemma repr_eq (s : AnalysisData) :
  __repr__ s
  = let summary := default (output_dict_structure (_data s)) (_repr s) in
    (Ok ("AnalysisData (" +:+ (if is_True (_read_only s) then "r" else "rw") +:+ ")"
         +:+ (if _last_data_saved s || is_True (_read_only s) then ""
              else " (not saved)")
         +:+ ": " +:+ String (ascii_of_nat 10) " " +:+ summary),
     set__repr (Some summary) s).
Proof.
  unfold __repr__, _get_repr. unfold_monad.
  destruct s as [r ? ? ro ? ? ? ? ?]. destruct r as [r|]; simpl;
    destruct (is_True ro); reflexivity.
Qed.

(** X19: the cached summary is never stale.  Starting from a state whose
    cache is empty or current, after any interleaving of public calls
    (failing or not) and [repr], the cache is again empty or the summary of
    the current [_data]; so [repr] always shows the summary of the current
    [_data], with mode [r] for a fully read-only container and [rw]
    otherwise, never [w]. *)
Theorem repr_shows_current_data (s : AnalysisData) (rs : list request) :
  cache_fresh s →
  let s' := served rs s in
  cache_fresh s'
  ∧ (__repr__ s').1
    = Ok ("AnalysisData (" +:+ (if is_True (_read_only s') then "r" else "rw") +:+ ")"
          +:+ (if _last_data_saved s' || is_True (_read_only s') then ""
               else " (not saved)")
          +:+ ": " +:+ String (ascii_of_nat 10) " "
          +:+ output_dict_structure (_data s')).
Proof.
  intros Hfresh s'.
  assert (Hs' : cache_fresh s').
  { subst s'. revert s Hfresh. induction rs as [|r rs IH]; intros s Hfresh; simpl.
    - exact Hfresh.
    - apply IH. destruct r as [o|]; simpl.
      + apply call_cache_fresh, Hfresh.
      + unfold void. unfold_monad. rewrite repr_eq. simpl.
        right. destruct Hfresh as [Hn|Hc]; rewrite ?Hn, ?Hc; reflexivity. }
  split; [exact Hs'|]. rewrite repr_eq. cbn zeta. cbn [fst].
  destruct Hs' as [Hn|Hc]; rewrite ?Hn, ?Hc; reflexivity.
Qed.

End Summary.

(** ** Saving again, and saving without a destination *)

Section SavingMore.
Context `{Collaborators}.

Lemma incremental_payload_empty (d : gmap string value) : incremental_payload ∅ d = ∅.
Proof.
  apply map_eq. intros k. rewrite incremental_payload_lookup, lookup_empty.
  destruct (decide (k ∈ (∅ : gset string))) as [Hin|]; [set_solver | reflexivity].
Qed.

(** X20: saving again right after a save.  Whatever the first save did
    after its read-only check, a following incremental save that finds a
    path hands [save_dict] the empty mapping, and a following full save
    hands it all of [_data], unchanged by the first save. *)
Theorem save_after_save (s : AnalysisData) ju fp fp' p :
  is_True (_read_only s) = false →
  _check_if_filepath_was_set fp' (_filepath s) = Ok p →
  let s1 := (save ju fp s).2 in
  calls (save true fp' s1).2 = (calls s1 ++ [EvSaveDict (p +:+ ".h5") ∅])%list
  ∧ calls (save false fp' s1).2
    = (calls s1 ++ [EvSaveDict (p +:+ ".h5") (_data s)])%list.
Proof.
  intros Hnt Hp s1.
  assert (Hfacts : is_True (_read_only s1) = false ∧ _filepath s1 = _filepath s
                   ∧ _last_update s1 = ∅ ∧ _data s1 = _data s).
  { subst s1. rewrite save_read_only.
    destruct (save_swaps_last_update s ju fp Hnt) as [Hu _].
    destruct (save_known_keys ju fp s) as [_ Hd].
    split; [exact Hnt|]. split; [|split; [exact Hu | exact Hd]].
    rewrite save_eq, Hnt. cbn zeta.
    destruct (_check_if_filepath_was_set fp (_filepath s)); [|reflexivity].
    unfold call_save_dict. destruct (save_dict _ _ _); reflexivity. }
  destruct Hfacts as (Hnt1 & Hfp1 & Hu1 & Hd1).
  rewrite !save_eq, Hnt1, Hfp1, Hp, Hu1, Hd1, incremental_payload_empty.
  cbn zeta. unfold call_save_dict.
  split; destruct (save_dict _ _ _); reflexivity.
Qed.

(** X21: auto-save without a destination.  On a container with
    [save_on_edit] but no bound path, assigning an unprotected key a value
    that is not an array handle raises the [ValueError] of the save, after
    the value has been stored: the key is in [_data] and [_attrs], yet
    [_last_update] is empty and [_last_data_saved] is set, and nothing was
    written. *)
Theorem auto_save_without_path k v (s : AnalysisData) :
  _save_on_edit s = true →
  _filepath s = None →
  __check_read_only_true k s = false →
  (∀ h, transform_to_possible_formats v ≠ VH5 h) →
  let r := __setitem__ k v s in
  r.1 = Raise (ValueError "Should provide filepath or set self.filepath before saving")
  ∧ _data r.2 = <[k := transform_to_possible_formats v]> (_data s)
  ∧ _attrs r.2 = _attrs s ∪ {[k]}
  ∧ _last_update r.2 = ∅
  ∧ _last_data_saved r.2 = true
  ∧ calls r.2 = calls s.
Proof.
  intros Hauto Hfp Hk Hno r. subst r.
  assert (Hnt : is_True (_read_only s) = false).
  { destruct (is_True (_read_only s)) eqn:Ht; [|reflexivity].
    rewrite (check_read_only_true_is_True k s Ht) in Hk. discriminate. }
  unfold __setitem__. rewrite editing_eq.
  unfold setitem_body, __add_key. unfold_monad. cbn.
  unfold __check_read_only_true in Hk |- *. cbn. rewrite Hk.
  destruct (transform_to_possible_formats v) as [| | | | |h] eqn:Hv;
    try (destruct (Hno h); reflexivity);
    cbn; rewrite Hauto; rewrite save_eq; cbn; rewrite Hnt, Hfp; cbn;
    repeat split.
Qed.

End SavingMore.

(** ** Known keys on runs that return *)

Section KnownKeysRuns.
Context `{Collaborators}.

Lemma calls_known_keys (ops : list op) (s s' : AnalysisData) :
  _attrs s = dom (_data s) →
  for_each ops call s = (Ok tt, s') →
  _attrs s' = dom (_data s').
Proof.
  revert s. induction ops as [|o ops IH]; intros s Hinv; simpl.
  - unfold_monad. intros Heq. inversion Heq; subst. exact Hinv.
  - unfold_monad. destruct (call o s) as [[[]|e] s1] eqn:Hcall; [|discriminate].
    apply IH. eapply call_known_keys; eassumption.
Qed.

(** X22: on a container the constructor returned, after any run of public
    calls that all returned, [_attrs] is exactly the key set of [_data]. *)
Theorem known_keys_after_successful_run fp soe ro ow (ops : list op)
    (s0 s : AnalysisData) :
  new fp soe ro ow = (Ok tt, s0) →
  for_each ops call s0 = (Ok tt, s) →
  _attrs s = dom (_data s).
Proof.
  intros Hnew Hrun. apply (calls_known_keys ops s0 s); [|exact Hrun].
  pose proof (new_known_keys fp soe ro ow) as Hk. rewrite Hnew in Hk. exact Hk.
Qed.

(** X23: on such a container the names [__dir__] lists are the method names
    of [_default_attr] together with exactly the names that can be read as an
    attribute; reading any other name raises [AttributeError], and reading
    never changes the container. *)
Theorem dir_lists_readable_names fp soe ro ow (ops : list op) (s0 s : AnalysisData) :
  new fp soe ro ow = (Ok tt, s0) →
  for_each ops call s0 = (Ok tt, s) →
  ∃ names,
    __dir__ s = (Ok names, s)
    ∧ ∀ k, (k ∈ names ↔ k ∈ _default_attr ∨ ∃ v, __getattr__ k s = (Ok v, s))
           ∧ (__getattr__ k s = (Raise (AttributeError
                                   ("No attribute " +:+ k +:+ " found in AnalysisData")), s)
              ∨ ∃ v, _data s !! k = Some v ∧ __getattr__ k s = (Ok v, s)).
Proof.
  intros Hnew Hrun.
  assert (Hinv : _attrs s = dom (_data s)).
  { apply (calls_known_keys ops s0 s); [|exact Hrun].
    pose proof (new_known_keys fp soe ro ow) as Hk. rewrite Hnew in Hk. exact Hk. }
  eexists. split; [reflexivity|]. intros k.
  assert (Hget : (k ∈ dom (_data s) ∧ ∃ v, _data s !! k = Some v
                                         ∧ __getattr__ k s = (Ok v, s))
                 ∨ ((k ∉ dom (_data s))
                    ∧ __getattr__ k s
                      = (Raise (AttributeError
                           ("No attribute " +:+ k +:+ " found in AnalysisData")), s))).
  { unfold __getattr__, get. unfold_monad. simpl.
    case_bool_decide as Hdom.
    - left. split; [exact Hdom|]. apply elem_of_dom in Hdom as [v Hv].
      exists v. rewrite Hv. split; reflexivity.
    - right. split; [exact Hdom | reflexivity]. }
  split.
  - rewrite elem_of_app, elem_of_elements, Hinv. split.
    + intros [Hin|Hdef]; [right | left; exact Hdef].
      destruct Hget as [(_ & v & _ & Hv)|[Hout _]]; [eauto | contradiction].
    + intros [Hdef|[v Hv]]; [right; exact Hdef | left].
      destruct Hget as [[Hin _]|[_ Hr]]; [exact Hin | congruence].
  - destruct Hget as [(_ & v & Hl & Hv)|[_ Hr]]; [right; eauto | left; exact Hr].
Qed.

End KnownKeysRuns.

(** ** The further properties on concrete containers *)

Lemma check_if_filepath_was_set_strips_witness :
  _check_if_filepath_was_set (Some "graph.h5") (Some "other") = Ok "grap"
  ∧ ∃ chosen cut,
      py_or (Some "graph.h5") (Some "other") = Some chosen
      ∧ chosen = "grap" +:+ cut
      ∧ all_in ".h5" cut
      ∧ ∀ u c, "grap" = u +:+ String c "" → in_chars c ".h5" = false.
Proof.
  assert (Hp : _check_if_filepath_was_set (Some "graph.h5") (Some "other") = Ok "grap")
    by (vm_compute; reflexivity).
  split; [exact Hp|].
  exact (check_if_filepath_was_set_strips (Some "graph.h5") (Some "other") "grap" Hp).
Defined.

Lemma save_goes_to_bound_file_witness :
  let H := stub true None in
  let s := (new (Some "run.h5") false (Some (ROBool false)) None).2 in
  _filepath s = Some (h5_name "run.h5")
  ∧ is_True (_read_only s) = false
  ∧ ∃ data, calls (save true None s).2
            = (calls s ++ [EvSaveDict (h5_name "run.h5") data])%list.
Proof.
  intros H s.
  assert (Hfp : _filepath s = Some (h5_name "run.h5")) by (vm_compute; reflexivity).
  assert (Hnt : is_True (_read_only s) = false) by (vm_compute; reflexivity).
  split; [exact Hfp|]. split; [exact Hnt|].
  exact (proj2 (save_goes_to_bound_file s "run.h5" true Hfp Hnt)).
Defined.

Lemma save_to_explicit_path_witness :
  let H := stub true None in
  let s := (new (Some "run") false (Some (ROBool false)) None).2 in
  is_True (_read_only s) = false
  ∧ (∃ data, calls (save false (Some "copy.h5") s).2
             = (calls s ++ [EvSaveDict (h5_name "copy.h5") data])%list)
  ∧ _filepath (save false (Some "copy.h5") s).2 = _filepath s.
Proof.
  intros H s.
  assert (Hnt : is_True (_read_only s) = false) by (vm_compute; reflexivity).
  split; [exact Hnt|].
  destruct (save_to_explicit_path s "c" "opy.h5" false Hnt) as (Hc & Hf & _).
  split; [exact Hc | exact Hf].
Defined.

Lemma new_postconditions_witness :
  let H := stub true (Some {["x" := VInt 5]}) in
  let s := (new (Some "run") false None None).2 in
  new (Some "run") false None None = (Ok tt, s)
  ∧ _read_only s = resolved_read_only (Some "run") false None None
  ∧ _attrs s = dom (_data s).
Proof.
  intros H s.
  assert (Hnew : new (Some "run") false None None = (Ok tt, s))
    by (vm_compute; reflexivity).
  split; [exact Hnew|].
  destruct (new_postconditions _ _ _ _ s Hnew) as (Hro & _ & _ & _ & _ & _ & Hk & _).
  split; [exact Hro | exact Hk].
Defined.

Lemma new_read_only_open_witness :
  truthy_opt None = false
  ∧ truthy (resolved_read_only (Some "run") false None None) = true
  ∧ @new (stub true (Some {["x" := VInt 5]})) (Some "run") false None None
    = (Ok tt,
       {| _repr := None; _last_data_saved := false; _filepath := None;
          _read_only := ROBool true;
          _data := {["x" := VInt 5]}; _attrs := dom ({["x" := VInt 5]} : gmap string value);
          _last_update := ∅; _save_on_edit := false; calls := [] |})
  ∧ (@new (stub true None) (Some "run") false None None).1
    = Raise (ValueError "Cannot open file in read_only mode if file run.h5 does not exist").
Proof.
  split; [reflexivity|]. split; [reflexivity|]. split.
  - exact (@new_read_only_open (stub true (Some {["x" := VInt 5]})) "run" None None
             eq_refl eq_refl).
  - exact (@new_read_only_open (stub true None) "run" None None eq_refl eq_refl).
Defined.

Lemma new_writable_open_existing_witness :
  let H := stub true (Some {["x" := VInt 5]}) in
  truthy (resolved_read_only (Some "run") true None (Some true)) = false
  ∧ path_exists (h5_name "run") = true
  ∧ calls (new (Some "run") true None (Some true)).2 = [EvRemove "run.h5"]
  ∧ _data (new (Some "run") false (Some (ROBool false)) (Some false)).2
    = {["x" := VInt 5]}
  ∧ ∃ msg, (new (Some "run") true None None).1 = Raise (ValueError msg).
Proof.
  intros H. split; [reflexivity|]. split; [reflexivity|]. split; [|split].
  - rewrite (@new_writable_open_existing H "run" true None (Some true) eq_refl eq_refl).
    reflexivity.
  - pose proof (@new_writable_open_existing H "run" false (Some (ROBool false)) (Some false)
                  eq_refl eq_refl) as Hw.
    cbn in Hw. rewrite Hw. reflexivity.
  - exact (@new_writable_open_existing H "run" true None None eq_refl eq_refl).
Defined.

Lemma new_writable_open_missing_witness :
  let H := stub true None in
  truthy (resolved_read_only (Some "run") true None None) = false
  ∧ path_exists (h5_name "run") = false
  ∧ _filepath (new (Some "run") true None None).2 = Some "run.h5"
  ∧ (new (Some "run") true None None).1 = Ok tt.
Proof.
  intros H. split; [reflexivity|]. split; [reflexivity|].
  rewrite (@new_writable_open_missing H "run" true None None eq_refl eq_refl).
  split; reflexivity.
Defined.

Lemma lock_data_protects_witness :
  let H := stub true None in
  let s := after [OSetItem "a" (VInt 1); OSetItem "b" (VInt 2)]
                 (new None false None None).2 in
  is_True (_read_only s) = false
  ∧ __check_read_only_true "a" (lock_data KeysNone s).2 = true
  ∧ __check_read_only_true "c" (lock_data KeysNone s).2 = false.
Proof.
  intros H s.
  assert (Hnt : is_True (_read_only s) = false) by (vm_compute; reflexivity).
  split; [exact Hnt|].
  destruct (lock_data_protects KeysNone s Hnt) as [_ Hcheck].
  rewrite !Hcheck. split; vm_compute; reflexivity.
Defined.

Lemma lock_then_clean_lock_witness :
  let H := stub true None in
  let s := after [OSetItem "a" (VInt 1)] (new None false None None).2 in
  _read_only s = ROBool false
  ∧ (lock_data (KeysIter ["a"; "z"]);; clean_lock KeysNone) s = (Ok tt, s).
Proof.
  intros H s.
  assert (Hro : _read_only s = ROBool false) by (vm_compute; reflexivity).
  split; [exact Hro|]. exact (lock_then_clean_lock (KeysIter ["a"; "z"]) s Hro).
Defined.

Lemma clean_lock_removes_witness :
  let H := stub true None in
  let s := after [OLock (KeysIter ["a"; "b"; "c"])] (new None false None None).2 in
  _read_only s = ROSet {["a"; "b"; "c"]}
  ∧ NoDup ["a"; "c"]
  ∧ clean_lock (KeysIter ["a"; "c"]) s
    = (Ok tt, set__read_only (ROSet ({["a"; "b"; "c"]} ∖ list_to_set ["a"; "c"])) s).
Proof.
  intros H s.
  assert (Hro : _read_only s = ROSet {["a"; "b"; "c"]}) by (vm_compute; reflexivity).
  assert (Hnd : NoDup ["a"; "c"]) by (apply (bool_decide_unpack _); vm_compute; reflexivity).
  split; [exact Hro|]. split; [exact Hnd|].
  apply (clean_lock_removes ["a"; "c"] s _ Hro Hnd).
  intros k Hk. apply (bool_decide_unpack _).
  apply elem_of_cons in Hk as [->|Hk]; [vm_compute; reflexivity|].
  apply elem_of_cons in Hk as [->|Hk]; [vm_compute; reflexivity|].
  inversion Hk.
Defined.

Lemma clean_lock_unknown_key_witness :
  let H := stub true None in
  let s := after [OLock (KeysIter ["a"; "b"])] (new None false None None).2 in
  _read_only s = ROSet {["a"; "b"]}
  ∧ clean_lock (KeysIter ["a"; "z"; "b"]) s
    = (Raise (KeyError (KStr "z")),
       set__read_only (ROSet ({["a"; "b"]} ∖ list_to_set ["a"])) s).
Proof.
  intros H s.
  assert (Hro : _read_only s = ROSet {["a"; "b"]}) by (vm_compute; reflexivity).
  split; [exact Hro|].
  apply (clean_lock_unknown_key ["a"] ["b"] "z" s _ Hro).
  - apply (bool_decide_unpack _). vm_compute. reflexivity.
  - intros k Hk. apply elem_of_cons in Hk as [->|Hk]; [|inversion Hk].
    apply (bool_decide_unpack _). vm_compute. reflexivity.
  - apply (bool_decide_unpack _). vm_compute. reflexivity.
Defined.

Lemma read_only_container_is_frozen_witness :
  let H := stub true (Some {["x" := VInt 5]}) in
  let s := (new (Some "run") false None None).2 in
  let ops := [OSetItem "x" (VInt 6); OPop "x"; OUpdate []; OSave false (Some "copy");
              OUpdate [("y", VInt 1)]] in
  _read_only s = ROBool true ∧ same_content s (after ops s).
Proof.
  intros H s ops.
  assert (Hro : _read_only s = ROBool true) by (vm_compute; reflexivity).
  split; [exact Hro|]. exact (proj1 (read_only_container_is_frozen s ops Hro)).
Defined.

Lemma bound_path_is_stable_witness :
  let H := stub false None in
  let s0 := (new (Some "run") false (Some (ROBool false)) None).2 in
  let ops := [OSetItem "a" (VInt 1); OLock KeysNone; OSave false None; OPop "zz"] in
  new (Some "run") false (Some (ROBool false)) None = (Ok tt, s0)
  ∧ _filepath (after ops s0) = _filepath s0
  ∧ _save_on_edit (after ops s0) = false.
Proof.
  intros H s0 ops.
  assert (Hnew : new (Some "run") false (Some (ROBool false)) None = (Ok tt, s0))
    by (vm_compute; reflexivity).
  split; [exact Hnew|].
  destruct (bound_path_is_stable _ _ _ _ s0 ops Hnew) as (Hf & Hs & _).
  split; [exact Hf | exact Hs].
Defined.

Lemma setitem_then_get_witness :
  let H := stub true None in
  let s := (new None false None None).2 in
  let s' := (__setitem__ "x" (VInt 5) s).2 in
  __setitem__ "x" (VInt 5) s = (Ok tt, s')
  ∧ get "x" (VInt 9) s' = (Ok (VInt 5), s')
  ∧ (get "y" (VInt 9) s').1 = (get "y" (VInt 9) s).1.
Proof.
  intros H s s'.
  assert (Hset : __setitem__ "x" (VInt 5) s = (Ok tt, s')) by (vm_compute; reflexivity).
  split; [exact Hset|].
  assert (Hno : ∀ h, transform_to_possible_formats (VInt 5) ≠ VH5 h)
    by (intros h; discriminate).
  destruct (setitem_then_get "x" (VInt 5) (VInt 9) s s' Hset Hno) as (Hg & _ & _ & _ & Ho).
  split; [exact Hg|]. apply Ho. discriminate.
Defined.

Lemma pop_then_get_witness :
  let H := stub true None in
  let s := after [OSetItem "x" (VInt 5)] (new None false None None).2 in
  let s' := (pop "x" s).2 in
  pop "x" s = (Ok tt, s')
  ∧ get "x" (VInt 9) s' = (Ok (VInt 9), s')
  ∧ __getitem__ (IKey (KStr "x")) s' = (Raise (KeyError (KStr "x")), s').
Proof.
  intros H s s'.
  assert (Hpop : pop "x" s = (Ok tt, s')) by (vm_compute; reflexivity).
  split; [exact Hpop|].
  destruct (pop_then_get "x" (VInt 9) s s' Hpop) as (Hg & Hi & _).
  split; [exact Hg | exact Hi].
Defined.

Lemma pop_absent_key_witness :
  let H := stub true None in
  let s := after [OSetItem "x" (VInt 5)] (new None false None None).2 in
  ("zz" ∉ _attrs s)
  ∧ pop "zz" s = (Raise (KeyError (KStr "zz")), set__last_data_saved false s).
Proof.
  intros H s.
  assert (Hk : "zz" ∉ _attrs s) by (apply (bool_decide_unpack _); vm_compute; reflexivity).
  split; [exact Hk|]. exact (pop_absent_key "zz" s Hk).
Defined.

Lemma update_then_get_witness :
  let H := stub true None in
  let s := after [OSetItem "x" (VInt 5)] (new None false None None).2 in
  let kwds := [("a", VInt 1); ("x", VInt 2)] in
  let s' := (update kwds s).2 in
  update kwds s = (Ok tt, s')
  ∧ NoDup kwds.*1
  ∧ get "x" VNone s' = (Ok (VInt 2), s').
Proof.
  intros H s kwds s'.
  assert (Hupd : update kwds s = (Ok tt, s')) by (vm_compute; reflexivity).
  assert (Hnd : NoDup kwds.*1) by (apply (bool_decide_unpack _); vm_compute; reflexivity).
  split; [exact Hupd|]. split; [exact Hnd|].
  destruct (update_then_get kwds VNone s s' Hupd Hnd) as (Hin & _ & _).
  apply (Hin "x" (VInt 2)). right. left.
Defined.


Lemma repr_shows_current_data_witness :
  let H := stub true None in
  let s := (new None false None None).2 in
  let rs := [Repr; Call (OSetItem "a" (VInt 1)); Repr; Call (OPop "zz"); Repr] in
  cache_fresh s ∧ cache_fresh (served rs s).
Proof.
  intros H s rs.
  assert (Hfresh : cache_fresh s) by (left; reflexivity).
  split; [exact Hfresh|]. exact (proj1 (repr_shows_current_data s rs Hfresh)).
Defined.

Lemma save_after_save_witness :
  let H := stub true None in
  let s := after [OSetItem "a" (VInt 1)] (new None false None None).2 in
  let s1 := (save false (Some "run") s).2 in
  is_True (_read_only s) = false
  ∧ _check_if_filepath_was_set (Some "run") (_filepath s) = Ok "run"
  ∧ calls (save true (Some "run") s1).2
    = (calls s1 ++ [EvSaveDict ("run" +:+ ".h5") ∅])%list.
Proof.
  intros H s s1.
  assert (Hnt : is_True (_read_only s) = false) by (vm_compute; reflexivity).
  assert (Hp : _check_if_filepath_was_set (Some "run") (_filepath s) = Ok "run")
    by (vm_compute; reflexivity).
  split; [exact Hnt|]. split; [exact Hp|].
  exact (proj1 (save_after_save s false (Some "run") (Some "run") "run" Hnt Hp)).
Defined.

Lemma auto_save_without_path_witness :
  let H := stub true None in
  let s := (new None true None None).2 in
  _save_on_edit s = true
  ∧ _filepath s = None
  ∧ (__setitem__ "x" (VInt 5) s).1
    = Raise (ValueError "Should provide filepath or set self.filepath before saving")
  ∧ _data (__setitem__ "x" (VInt 5) s).2 = <["x" := VInt 5]> (_data s)
  ∧ _last_update (__setitem__ "x" (VInt 5) s).2 = ∅.
Proof.
  intros H s. split; [reflexivity|]. split; [reflexivity|].
  assert (Hno : ∀ h, transform_to_possible_formats (VInt 5) ≠ VH5 h)
    by (intros h; discriminate).
  destruct (@auto_save_without_path H "x" (VInt 5) s eq_refl eq_refl eq_refl Hno)
    as (Hr & Hd & _ & Hu & _).
  split; [exact Hr|]. split; [exact Hd | exact Hu].
Defined.

Lemma known_keys_after_successful_run_witness :
  let H := stub true None in
  let s0 := (new None false None None).2 in
  let ops := [OSetItem "a" (VInt 1); OUpdate [("b", VInt 2)]; OPop "a"; OLock KeysNone] in
  let s := (for_each ops call s0).2 in
  new None false None None = (Ok tt, s0)
  ∧ for_each ops call s0 = (Ok tt, s)
  ∧ _attrs s = dom (_data s).
Proof.
  intros H s0 ops s.
  assert (Hnew : new None false None None = (Ok tt, s0)) by reflexivity.
  assert (Hrun : for_each ops call s0 = (Ok tt, s)) by (vm_compute; reflexivity).
  split; [exact Hnew|]. split; [exact Hrun|].
  exact (known_keys_after_successful_run _ _ _ _ ops s0 s Hnew Hrun).
Defined.

Lemma dir_lists_readable_names_witness :
  let H := stub true None in
  let s0 := (new None false None None).2 in
  let ops := [OSetItem "a" (VInt 1); OUpdate [("b", VInt 2)]; OPop "a"] in
  let s := (for_each ops call s0).2 in
  new None false None None = (Ok tt, s0)
  ∧ for_each ops call s0 = (Ok tt, s)
  ∧ ∃ names, __dir__ s = (Ok names, s)
             ∧ ("b" ∈ names ↔ "b" ∈ _default_attr ∨ ∃ v, __getattr__ "b" s = (Ok v, s)).
Proof.
  intros H s0 ops s.
  assert (Hnew : new None false None None = (Ok tt, s0)) by reflexivity.
  assert (Hrun : for_each ops call s0 = (Ok tt, s)) by (vm_compute; reflexivity).
  split; [exact Hnew|]. split; [exact Hrun|].
  destruct (dir_lists_readable_names _ _ _ _ ops s0 s Hnew Hrun) as (names & Hdir & Hall).
  exists names. split; [exact Hdir|]. exact (proj1 (Hall "b")).
Defined.
